(** * CEI scores and stock returns: the notebook's data preparation and tests

    A shallow embedding of [notebooks/cei_stock_analysis.ipynb] (the cells
    that prepare, merge, group and test the data) and of the extraction
    pipeline as the extraction report describes it.

    Conventions of the embedding.
    - A Python [str] is a [string]; one [ascii] stands for one character, so
      the strings covered are those whose characters have code points below
      256.  [len] is [String.length].
    - A missing cell of a pandas frame ([NaN], [None], [NaT]) is [None] of an
      [option]; [pd.isna] is the test for it.
    - A numeric cell ([int64] or [float64]) is an exact rational [Q]: sums and
      floor divisions are the exact ones.
    - Third-party numerics that are not rational functions of their input
      (the sample standard deviation, the square root, the t-test of scipy)
      are parameters of a Section; their float result is a rational or
      missing. *)

From Stdlib Require Import ZArith QArith Qround List Bool Ascii String Lia.
From Stdlib Require Import DecimalString DecimalZ Permutation.
From Stdlib Require Import Sorted.
Import ListNotations.

#[local] Open Scope string_scope.
#[local] Open Scope Z_scope.

(** ** Python primitives used by the notebook *)

Module Py.

(** [str.isspace] on one character, for code points below 256: the ASCII
    controls TAB..CR and FS..US, the space, NEL (0x85) and NBSP (0xA0). *)
Definition isspace (c : ascii) : bool :=
  let n := nat_of_ascii c in
  ((9 <=? n) && (n <=? 13) || (28 <=? n) && (n <=? 32)
   || (n =? 133) || (n =? 160))%nat.

Fixpoint lstrip (s : string) : string :=
  match s with
  | EmptyString => EmptyString
  | String c s' => if isspace c then lstrip s' else s
  end.

Fixpoint rstrip (s : string) : string :=
  match s with
  | EmptyString => EmptyString
  | String c s' =>
      match rstrip s' with
      | EmptyString => if isspace c then EmptyString else String c EmptyString
      | r => String c r
      end
  end.

(** [s.strip()] with no argument. *)
Definition strip (s : string) : string := rstrip (lstrip s).

(** What [strip] leaves and removes, as predicates on strings. *)
Fixpoint all_space (s : string) : bool :=
  match s with
  | EmptyString => true
  | String c s' => isspace c && all_space s'
  end.

Definition starts_with_space (s : string) : bool :=
  match s with
  | EmptyString => false
  | String c _ => isspace c
  end.

Fixpoint ends_with_space (s : string) : bool :=
  match s with
  | EmptyString => false
  | String c EmptyString => isspace c
  | String _ s' => ends_with_space s'
  end.

(** [s[:n]] *)
Definition slice_to (n : nat) (s : string) : string := substring 0 n s.

(** [str(z)] and [f"{z}"] of an [int]. *)
Definition str_of_int (z : Z) : string := NilZero.string_of_int (Z.to_int z).

(** The values a cell of the [cusip] column can hold when [get_cusip6] is
    applied to it: missing, a string, an integer (an all-digit column), or
    any other value that is not missing, which [get_cusip6] reads through
    its string form only and which is stood for by that form. *)
Inductive value : Type :=
| NaN : value
| Str : string -> value
| Int : Z -> value
| Other (repr : string) : value.

Definition isna (v : value) : bool :=
  match v with NaN => true | _ => false end.

(** [str(v)] *)
Definition str (v : value) : string :=
  match v with
  | NaN => "nan"
  | Str s => s
  | Int z => str_of_int z
  | Other repr => repr
  end.

(** [x in xs] on strings, as [Series.isin] tests each cell. *)
Definition isin (x : string) (xs : list string) : bool :=
  existsb (String.eqb x) xs.

End Py.

(** ** The notebook's two cell-level functions *)

(** [get_cusip6] (cell 3). *)
Definition get_cusip6 (cusip : Py.value) : option string :=
  if Py.isna cusip then None
  else
    let cusip_str := Py.strip (Py.str cusip) in
    if (6 <=? String.length cusip_str)%nat then Some (Py.slice_to 6 cusip_str)
    else None.

(** [create_score_bin] (cell 4): [score // 10] is the floor of the quotient. *)
Definition create_score_bin (score : option Q) : option string :=
  match score with
  | None => None
  | Some s =>
      let bin_start := Qfloor (s / 10) * 10 in
      let bin_end := Z.min (bin_start + 9) 100 in
      Some (Py.str_of_int bin_start ++ "-" ++ Py.str_of_int bin_end)
  end.

(** ** Frames

    A frame is the list of its rows, in row order; a row is a record of the
    columns the notebook uses. *)

(** A parsed date ([pd.Timestamp]); [dt.year] is [year_of]. *)
Record timestamp : Type := { year_of : Z; month_of : Z; day_of : Z }.

(** [data/processed/cei_with_dates.csv] as [pd.read_csv] returns it. *)
Module CeiCsv.
Record row : Type :=
  { cusip : Py.value; year : option Z; cei_score : option Q;
    employer : option string }.
End CeiCsv.

(** [cei_df] after cells 3 and 4: with the columns [cusip6] and [score_bin]. *)
Module Cei.
Record row : Type :=
  { cusip : Py.value; year : option Z; cei_score : option Q;
    employer : option string; cusip6 : option string;
    score_bin : option string }.
End Cei.

(** [data/processed/stock_prices_event_window.csv], dates parsed (cell 2). *)
Module Stock.
Record row : Type :=
  { cusip6 : option string; date : option timestamp;
    cei_release_date : option timestamp; days_from_release : option Z;
    RET : option Q }.

(** [stock_df['cei_year'] = stock_df['cei_release_date'].dt.year] *)
Definition cei_year (s : row) : option Z :=
  option_map year_of (cei_release_date s).
End Stock.

(** [merged_df]: the columns of [stock_df] (with [cei_year]) and the columns
    [year], [cei_score], [score_bin], [employer] of [cei_df]; the key column
    [cusip6] appears once. *)
Module Merged.
Record row : Type :=
  { cusip6 : option string; date : option timestamp;
    cei_release_date : option timestamp; days_from_release : option Z;
    RET : option Q; cei_year : option Z; year : option Z;
    cei_score : option Q; score_bin : option string;
    employer : option string }.
End Merged.

Definition notna {A : Type} (x : option A) : bool :=
  match x with Some _ => true | None => false end.

(** *** Cell 3: [cusip6] and the first [dropna] *)

Definition with_cusip6 (cei_df : list CeiCsv.row)
  : list (CeiCsv.row * option string) :=
  map (fun r => (r, get_cusip6 (CeiCsv.cusip r))) cei_df.

(** [cei_df.dropna(subset=['cusip6', 'cei_score'])] *)
Definition dropna_cusip6_score (cei_df : list (CeiCsv.row * option string))
  : list (CeiCsv.row * option string) :=
  filter (fun rc => notna (snd rc) && notna (CeiCsv.cei_score (fst rc))) cei_df.

(** *** Cell 4: [score_bin] *)

Definition with_score_bin (cei_df : list (CeiCsv.row * option string))
  : list Cei.row :=
  map (fun rc =>
         let r := fst rc in
         {| Cei.cusip := CeiCsv.cusip r; Cei.year := CeiCsv.year r;
            Cei.cei_score := CeiCsv.cei_score r;
            Cei.employer := CeiCsv.employer r; Cei.cusip6 := snd rc;
            Cei.score_bin := create_score_bin (CeiCsv.cei_score r) |})
      cei_df.

Definition prepare_cei (cei_csv : list CeiCsv.row) : list Cei.row :=
  with_score_bin (dropna_cusip6_score (with_cusip6 cei_csv)).

(** *** Cell 5: the merge and the second [dropna] *)

(** Equality of two key cells.  [DataFrame.merge] matches a missing key with
    a missing key. *)
Definition key_eqb {A : Type} (eqb : A -> A -> bool) (x y : option A) : bool :=
  match x, y with
  | Some a, Some b => eqb a b
  | None, None => true
  | _, _ => false
  end.

(** [left_on=['cusip6', 'cei_year'], right_on=['cusip6', 'year']] *)
Definition keys_match (s : Stock.row) (c : Cei.row) : bool :=
  key_eqb String.eqb (Stock.cusip6 s) (Cei.cusip6 c)
  && key_eqb Z.eqb (Stock.cei_year s) (Cei.year c).

(** The pairs of a left row and a right row an inner merge joins: left rows
    in order, and for each the matching right rows in order. *)
Definition matched_pairs (stock_df : list Stock.row) (cei_df : list Cei.row)
  : list (Stock.row * Cei.row) :=
  flat_map (fun s => map (pair s) (filter (keys_match s) cei_df)) stock_df.

(** The merged row of a joined pair. *)
Definition join (sc : Stock.row * Cei.row) : Merged.row :=
  let (s, c) := sc in
  {| Merged.cusip6 := Stock.cusip6 s; Merged.date := Stock.date s;
     Merged.cei_release_date := Stock.cei_release_date s;
     Merged.days_from_release := Stock.days_from_release s;
     Merged.RET := Stock.RET s; Merged.cei_year := Stock.cei_year s;
     Merged.year := Cei.year c; Merged.cei_score := Cei.cei_score c;
     Merged.score_bin := Cei.score_bin c;
     Merged.employer := Cei.employer c |}.

(** [stock_df.merge(cei_df[[...]], left_on=..., right_on=..., how='inner')] *)
Definition merge_inner (stock_df : list Stock.row) (cei_df : list Cei.row)
  : list Merged.row :=
  map join (matched_pairs stock_df cei_df).

(** [merged_df.dropna(subset=['RET'])] *)
Definition dropna_RET (merged_df : list Merged.row) : list Merged.row :=
  filter (fun m => notna (Merged.RET m)) merged_df.

(** [merged_df] as every later cell reads it. *)
Definition merged_df (stock_df : list Stock.row) (cei_csv : list CeiCsv.row)
  : list Merged.row :=
  dropna_RET (merge_inner stock_df (prepare_cei cei_csv)).

(** ** Grouping *)

Section Sorting.
Context {K : Type}.
Variable cmp : K -> K -> comparison.

Fixpoint insert_sorted (k : K) (l : list K) : list K :=
  match l with
  | [] => [k]
  | x :: xs =>
      match cmp k x with
      | Gt => x :: insert_sorted k xs
      | _ => k :: l
      end
  end.

Definition sort_by (l : list K) : list K := fold_right insert_sorted [] l.
End Sorting.

Section GroupBy.
Context {R K : Type}.
Variable K_eq_dec : forall a b : K, {a = b} + {a <> b}.
Variable cmp : K -> K -> comparison.
(** The key of a row; [None] when one of the key columns is missing. *)
Variable key : R -> option K.

Fixpoint keys_of (rows : list R) : list K :=
  match rows with
  | [] => []
  | r :: rs =>
      match key r with
      | Some k => k :: keys_of rs
      | None => keys_of rs
      end
  end.

Definition has_key (k : K) (r : R) : bool :=
  match key r with
  | Some k' => if K_eq_dec k k' then true else false
  | None => false
  end.

(** [df.groupby(keys)]: one group per distinct key, groups in key order
    ([sort=True]), rows with a missing key left out ([dropna=True]), the
    rows of a group in frame order. *)
Definition groupby (rows : list R) : list (K * list R) :=
  map (fun k => (k, filter (has_key k) rows))
      (sort_by cmp (nodup K_eq_dec (keys_of rows))).
End GroupBy.

(** Lexicographic combination of two comparisons. *)
Definition lex (c1 c2 : comparison) : comparison :=
  match c1 with Eq => c2 | _ => c1 end.

(** ** The analysis cells *)

(** Rows of [yearly_analysis] (cell 6). *)
Module Yearly.
Record row : Type :=
  { year : Z; score_bin : string; days_from_release : Z;
    avg_return : option Q; std_return : option Q; count : nat }.
End Yearly.

(** Rows of [overall_analysis] (cell 8). *)
Module Overall.
Record row : Type :=
  { score_bin : string; days_from_release : Z; avg_return : option Q;
    std_return : option Q; count : nat; std_error : option Q }.
End Overall.

(** Rows of [firm_event_returns] (cell 11). *)
Module FirmEvent.
Record row : Type :=
  { cusip6 : string; year : Z; score_bin : string; event_return : Q }.
End FirmEvent.

(** Rows of [summary_stats] (cell 11), indexed by [score_bin]. *)
Module Summary.
Record row : Type :=
  { score_bin : string; N_firms : nat; Mean_Return : option Q;
    Std_Return : option Q; Min_Return : option Q; Max_Return : option Q;
    Mean_Return_pct : option Q }.
End Summary.

(** [year_data.pivot(index=..., columns=..., values=...)]: row labels, column
    labels and, per row label, one cell per column label. *)
Record pivot_table : Type :=
  { index : list Z; columns : list string;
    cells : list (list (option Q)) }.

(** The outcome of cell 13. *)
Inductive test_outcome : Type :=
| Tested (t_stat p_value : option Q)
| Insufficient (message : string).

Definition str_Z_str_eq_dec (a b : string * Z * string) : {a = b} + {a <> b}.
Proof. repeat decide equality. Defined.

Definition Z_str_Z_eq_dec (a b : Z * string * Z) : {a = b} + {a <> b}.
Proof. repeat decide equality. Defined.

Definition str_Z_eq_dec (a b : string * Z) : {a = b} + {a <> b}.
Proof. repeat decide equality. Defined.

Definition cmp_str_Z_str (a b : string * Z * string) : comparison :=
  let '(c, y, s) := a in
  let '(c', y', s') := b in
  lex (String.compare c c') (lex (Z.compare y y') (String.compare s s')).

Definition cmp_Z_str_Z (a b : Z * string * Z) : comparison :=
  let '(y, s, d) := a in
  let '(y', s', d') := b in
  lex (Z.compare y y') (lex (String.compare s s') (Z.compare d d')).

Definition cmp_str_Z (a b : string * Z) : comparison :=
  let '(s, d) := a in
  let '(s', d') := b in
  lex (String.compare s s') (Z.compare d d').

(** The non-missing cells of a column, in row order: what [sum], [mean],
    [std] and [count] of a group read. *)
Definition present {A : Type} (col : list (option A)) : list A :=
  flat_map (fun x => match x with Some a => [a] | None => [] end) col.

Definition RET_values (rows : list Merged.row) : list Q :=
  present (map Merged.RET rows).

(** [Series.sum] *)
Definition Qsum (l : list Q) : Q := fold_left Qplus l 0%Q.

(** [Series.mean]: missing for no value. *)
Definition Qmean (l : list Q) : option Q :=
  match l with
  | [] => None
  | _ => Some (Qsum l / inject_Z (Z.of_nat (List.length l)))%Q
  end.

(** [Series.min] and [Series.max]. *)
Definition Qmin_list (l : list Q) : option Q :=
  match l with
  | [] => None
  | x :: xs => Some (fold_left (fun a b => if Qle_bool a b then a else b) xs x)
  end.

Definition Qmax_list (l : list Q) : option Q :=
  match l with
  | [] => None
  | x :: xs => Some (fold_left (fun a b => if Qle_bool a b then b else a) xs x)
  end.

(** [Series.between(lo, hi)]: both ends included, false on a missing cell. *)
Definition between (lo hi : Z) (x : option Z) : bool :=
  match x with
  | Some d => (lo <=? d) && (d <=? hi)
  | None => false
  end.

Definition yearly_key (m : Merged.row) : option (Z * string * Z) :=
  match Merged.year m, Merged.score_bin m, Merged.days_from_release m with
  | Some y, Some b, Some d => Some (y, b, d)
  | _, _, _ => None
  end.

Definition overall_key (m : Merged.row) : option (string * Z) :=
  match Merged.score_bin m, Merged.days_from_release m with
  | Some b, Some d => Some (b, d)
  | _, _ => None
  end.

Definition firm_key (m : Merged.row) : option (string * Z * string) :=
  match Merged.cusip6 m, Merged.year m, Merged.score_bin m with
  | Some c, Some y, Some b => Some (c, y, b)
  | _, _, _ => None
  end.

(** Cell 11: [merged_df[merged_df['days_from_release'].between(-3, 3)]] *)
Definition event_window (merged : list Merged.row) : list Merged.row :=
  filter (fun m => between (-3) 3 (Merged.days_from_release m)) merged.

(** Cell 11:
    [event_window.groupby(['cusip6', 'year', 'score_bin'])['RET'].sum()] *)
Definition firm_event_returns (merged : list Merged.row)
  : list FirmEvent.row :=
  map (fun kg : (string * Z * string) * list Merged.row =>
         let '((c, y, b), g) := kg in
         {| FirmEvent.cusip6 := c; FirmEvent.year := y;
            FirmEvent.score_bin := b;
            FirmEvent.event_return := Qsum (RET_values g) |})
      (groupby str_Z_str_eq_dec cmp_str_Z_str firm_key (event_window merged)).

(** Cell 13: the two groups of the test. *)
Definition high_scores (fer : list FirmEvent.row) : list Q :=
  map FirmEvent.event_return
      (filter (fun r => Py.isin (FirmEvent.score_bin r) ["90-100"]) fer).

Definition low_scores (fer : list FirmEvent.row) : list Q :=
  map FirmEvent.event_return
      (filter (fun r => Py.isin (FirmEvent.score_bin r) ["0-9"; "10-19"]) fer).

Section Analysis.
(** Third-party numerics: [Series.std], [np.sqrt], [scipy.stats.ttest_ind]. *)
Variable std : list Q -> option Q.
Variable np_sqrt : Q -> option Q.
Variable ttest_ind : list Q -> list Q -> option Q * option Q.

(** Cell 6 *)
Definition yearly_analysis (merged : list Merged.row) : list Yearly.row :=
  map (fun kg : (Z * string * Z) * list Merged.row =>
         let '((y, b, d), g) := kg in
         {| Yearly.year := y; Yearly.score_bin := b;
            Yearly.days_from_release := d;
            Yearly.avg_return := Qmean (RET_values g);
            Yearly.std_return := std (RET_values g);
            Yearly.count := List.length (RET_values g) |})
      (groupby Z_str_Z_eq_dec cmp_Z_str_Z yearly_key merged).

(** Cell 7: [yearly_analysis[yearly_analysis['year'] == year]] and its
    pivot on [avg_return]. *)
Definition year_data (ya : list Yearly.row) (year : Z) : list Yearly.row :=
  filter (fun r => Yearly.year r =? year) ya.

Definition pivot (rows : list Yearly.row) : pivot_table :=
  let idx := sort_by Z.compare
               (nodup Z.eq_dec (map Yearly.days_from_release rows)) in
  let cols := sort_by String.compare
                (nodup string_dec (map Yearly.score_bin rows)) in
  {| index := idx; columns := cols;
     cells :=
       map (fun d =>
              map (fun b =>
                     match find (fun r => (Yearly.days_from_release r =? d)
                                          && String.eqb (Yearly.score_bin r) b)
                                rows with
                     | Some r => Yearly.avg_return r
                     | None => None
                     end)
                  cols)
           idx |}.

(** Cell 8 *)
Definition overall_analysis (merged : list Merged.row) : list Overall.row :=
  map (fun kg : (string * Z) * list Merged.row =>
         let '((b, d), g) := kg in
         let vals := RET_values g in
         {| Overall.score_bin := b; Overall.days_from_release := d;
            Overall.avg_return := Qmean vals;
            Overall.std_return := std vals;
            Overall.count := List.length vals;
            Overall.std_error :=
              match std vals, np_sqrt (inject_Z (Z.of_nat (List.length vals))) with
              | Some s, Some r => Some (s / r)%Q
              | _, _ => None
              end |})
      (groupby str_Z_eq_dec cmp_str_Z overall_key merged).

(** Cell 11: [firm_event_returns.groupby('score_bin')['event_return'].agg] *)
Definition summary_stats (fer : list FirmEvent.row) : list Summary.row :=
  map (fun kg : string * list FirmEvent.row =>
         let (b, g) := kg in
         let vals := map FirmEvent.event_return g in
         {| Summary.score_bin := b; Summary.N_firms := List.length vals;
            Summary.Mean_Return := Qmean vals; Summary.Std_Return := std vals;
            Summary.Min_Return := Qmin_list vals;
            Summary.Max_Return := Qmax_list vals;
            Summary.Mean_Return_pct :=
              option_map (fun m => m * 100)%Q (Qmean vals) |})
      (groupby string_dec String.compare
               (fun r => Some (FirmEvent.score_bin r)) fer).

(** Cell 13: the t-test, run when both groups have a row. *)
Definition significance_test (fer : list FirmEvent.row) : test_outcome :=
  let high := high_scores fer in
  let low := low_scores fer in
  if (0 <? List.length high)%nat && (0 <? List.length low)%nat then
    let (t_stat, p_value) := ttest_ind high low in
    Tested t_stat p_value
  else Insufficient "Insufficient data for statistical test".

End Analysis.

(** ** The extraction pipeline, from the extraction report

    The extractors themselves ([utils.py], [cei_extractor.py],
    [cei_improved_extractor.py], [ocr_cei_extractor.py]) are not part of the
    sources at hand; the report on them is.  The definitions of this module
    follow the report's sections "OCR Processing Pipeline", "Key Features",
    "Missing Years" and "Data Schema". *)

Module Extraction.

(** Modelled from the spec: one line of a per-year CSV, with the columns of
    "Data Schema". *)
Record record : Type := { Company : string; CEI_Score : Q; Year : Z }.

(** What parsing yields before the year is attached: a name and a score. *)
Definition candidate : Type := (string * Q)%type.

(** Modelled from the spec: the five steps of "OCR Processing Pipeline". *)
Inductive stage : Type :=
| PdfToImage | TextExtraction | PatternRecognition | DataCleaning
| ScoreValidation.

(** Modelled from the spec: the three parsing strategies of "Pattern
    Recognition" that the report gives a year range, and the range of each:
    "Modern format (2015+)", "Mid-era format (2010-2014)", "Legacy format
    (pre-2010)". *)
Inductive era : Type := Modern | MidEra | Legacy.

Definition in_era_range (e : era) (year : Z) : bool :=
  match e with
  | Modern => 2015 <=? year
  | MidEra => (2010 <=? year) && (year <=? 2014)
  | Legacy => year <? 2010
  end.

(** Modelled from the spec: why a year has no dataset ("Missing Years"). *)
Inductive failure : Type := NoPdfAvailable | ExtractionFailed.

(** What the run writes to its log. *)
Inductive event : Type :=
| Step (year : Z) (s : stage)
| Skipped (year : Z) (why : failure)
| Saved (year : Z) (records : nat).

(** A computation that appends to the log. *)
Definition Log (A : Type) : Type := list event -> A * list event.

Definition ret {A : Type} (a : A) : Log A := fun log => (a, log).

Definition bind {A B : Type} (m : Log A) (k : A -> Log B) : Log B :=
  fun log => let (a, log') := m log in k a log'.

Definition tell (e : event) : Log unit := fun log => (tt, (log ++ [e])%list).

Notation "x <- m ;; k" := (bind m (fun x => k))
  (at level 61, m at next level, right associativity).
Notation "m ;;; k" := (bind m (fun _ => k))
  (at level 61, right associativity).

(** Modelled from the spec: the score check of step 5, "Ensure numerical
    scores within valid range", the range being that of "Data validation:
    Ensures score ranges (0-100)". *)
Definition valid_score (score : Q) : bool :=
  Qle_bool 0 score && Qle_bool score 100.

(** Modelled from the spec: step 5 keeps the candidates with a valid score. *)
Definition validate_scores (cs : list candidate) : list candidate :=
  filter (fun c => valid_score (snd c)) cs.

(** Modelled from the spec: a record of the year's dataset, with the three
    columns of "Data Schema". *)
Definition emit (year : Z) (c : candidate) : record :=
  {| Company := fst c; CEI_Score := snd c; Year := year |}.

(** The third-party parts and the parsing heuristics, as an interface. *)
Class Toolchain : Type :=
  { pdf : Type;
    image : Type;
    (** The year's report under [data/raw/CEI], when there is one. *)
    pdf_of_year : Z -> option pdf;
    (** Phase 1, table detection. *)
    table_extraction : pdf -> list candidate;
    (** Phase 2: page images, OCR text, year-aware parsing, artifact
        removal. *)
    pdf_to_images : pdf -> list image;
    ocr_text : image -> string;
    parse_text : Z -> list string -> list candidate;
    remove_artifacts : list candidate -> list candidate }.

Section Pipeline.
Context {T : Toolchain}.

(** Modelled from the spec: the OCR processing of one document, the five
    steps of "OCR Processing Pipeline" in the order the report numbers
    them. *)
Definition ocr_pipeline (year : Z) (doc : pdf) : Log (list record) :=
  tell (Step year PdfToImage) ;;;
  images <- ret (pdf_to_images doc) ;;
  tell (Step year TextExtraction) ;;;
  texts <- ret (map ocr_text images) ;;
  tell (Step year PatternRecognition) ;;;
  parsed <- ret (parse_text year texts) ;;
  tell (Step year DataCleaning) ;;;
  cleaned <- ret (remove_artifacts parsed) ;;
  tell (Step year ScoreValidation) ;;;
  validated <- ret (validate_scores cleaned) ;;
  ret (map (emit year) validated).

(** Modelled from the spec: "Multi-strategy extraction: Combines table
    detection and OCR processing"; OCR handles what table extraction left
    without records ("Target: Missing years and incorrectly extracted
    data"). *)
Definition extract_document (year : Z) (doc : pdf) : Log (list record) :=
  match map (emit year) (validate_scores (table_extraction doc)) with
  | [] => ocr_pipeline year doc
  | records => ret records
  end.

(** Modelled from the spec: one year of the run.  A year without a PDF, or
    whose PDF yields no record by any method, is logged and left without a
    dataset ("Missing Years"); any other year gets its dataset. *)
Definition process_year (year : Z) : Log (option (Z * list record)) :=
  match pdf_of_year year with
  | None => tell (Skipped year NoPdfAvailable) ;;; ret None
  | Some doc =>
      records <- extract_document year doc ;;
      match records with
      | [] => tell (Skipped year ExtractionFailed) ;;; ret None
      | _ => tell (Saved year (List.length records)) ;;;
             ret (Some (year, records))
      end
  end.

(** Modelled from the spec: the whole run, year after year; the datasets
    written under [data/processed/cei], in year order of the run. *)
Fixpoint process_years (years : list Z) : Log (list (Z * list record)) :=
  match years with
  | [] => ret []
  | y :: ys =>
      r <- process_year y ;;
      rest <- process_years ys ;;
      ret (match r with Some d => d :: rest | None => rest end)
  end.

(** The records a document yields and the dataset of a year, as values:
    what [extract_document] and [process_year] return, without the log. *)
Definition ocr_records (year : Z) (doc : pdf) : list record :=
  map (emit year)
      (validate_scores
         (remove_artifacts (parse_text year (map ocr_text (pdf_to_images doc))))).

Definition extracted_records (year : Z) (doc : pdf) : list record :=
  match map (emit year) (validate_scores (table_extraction doc)) with
  | [] => ocr_records year doc
  | records => records
  end.

Definition dataset_of_year (year : Z) : option (list record) :=
  match pdf_of_year year with
  | None => None
  | Some doc =>
      match extracted_records year doc with
      | [] => None
      | records => Some records
      end
  end.

(** What a year appends to the log, as a value. *)
Definition ocr_steps (year : Z) : list event :=
  map (Step year)
      [PdfToImage; TextExtraction; PatternRecognition; DataCleaning;
       ScoreValidation].

Definition year_events (year : Z) : list event :=
  match pdf_of_year year with
  | None => [Skipped year NoPdfAvailable]
  | Some doc =>
      match map (emit year) (validate_scores (table_extraction doc)) with
      | [] => ocr_steps year
      | _ => []
      end
      ++ match extracted_records year doc with
         | [] => [Skipped year ExtractionFailed]
         | records => [Saved year (List.length records)]
         end
  end%list.

(** The datasets a run writes, as a value: one per year with a dataset,
    in the order of the years. *)
Definition datasets (years : list Z) : list (Z * list record) :=
  flat_map (fun y => match dataset_of_year y with
                     | Some records => [(y, records)]
                     | None => []
                     end) years.

(** The datasets and the log of a run started with an empty log. *)
Definition run (years : list Z) : list (Z * list record) * list event :=
  process_years years [].

End Pipeline.

End Extraction.

(** ** Predicates and sample inputs of the properties below *)

(** The invariant of a row of [merged_df]: a [cusip6] of exactly 6
    characters, and a score, a score bin and a return that are not missing. *)
Definition row_ok (m : Merged.row) : bool :=
  match Merged.cusip6 m with
  | Some c => (String.length c =? 6)%nat
  | None => false
  end
  && notna (Merged.cei_score m) && notna (Merged.score_bin m)
  && notna (Merged.RET m).

(** The key of a row of [firm_event_returns]. *)
Definition firm_event_key (r : FirmEvent.row) : string * Z * string :=
  (FirmEvent.cusip6 r, FirmEvent.year r, FirmEvent.score_bin r).

(** The rows of [merged] of one firm, year and score bin that lie in the
    event window. *)
Definition group_window_rows (merged : list Merged.row)
  (k : string * Z * string) : list Merged.row :=
  filter (fun m => between (-3) 3 (Merged.days_from_release m)
                   && has_key str_Z_str_eq_dec firm_key k m) merged.

(** The rows of [merged] of one firm and year, whatever the score bin, that
    lie in the event window, and the sum of their returns. *)
Definition firm_year_window_rows (merged : list Merged.row)
  (c : string) (y : Z) : list Merged.row :=
  filter (fun m => between (-3) 3 (Merged.days_from_release m)
                   && key_eqb String.eqb (Merged.cusip6 m) (Some c)
                   && key_eqb Z.eqb (Merged.year m) (Some y)) merged.

Definition firm_year_window_sum (merged : list Merged.row)
  (c : string) (y : Z) : Q :=
  Qsum (RET_values (firm_year_window_rows merged c y)).

Module Sample.

Definition cei (cusip : string) (year : Z) (score : Q) : CeiCsv.row :=
  {| CeiCsv.cusip := Py.Str cusip; CeiCsv.year := Some year;
     CeiCsv.cei_score := Some score; CeiCsv.employer := Some "Acme" |}.

Definition stock (cusip6 : string) (year day : Z) (ret : Q) : Stock.row :=
  {| Stock.cusip6 := Some cusip6; Stock.date := None;
     Stock.cei_release_date :=
       Some {| year_of := year; month_of := 11; day_of := 1 |};
     Stock.days_from_release := Some day; Stock.RET := Some ret |}.

(** One issuer listed three times in 2010, with scores in two bins. *)
Definition cei_csv : list CeiCsv.row :=
  [cei "123456789" 2010 5; cei "123456102" 2010 7;
   cei " 123456AB1 " 2010 15; cei "98765" 2010 15]%Q.

(** Its returns around the release: one day before the window, two in it. *)
Definition stock_df : list Stock.row :=
  [stock "123456" 2010 (-4) (1 # 100); stock "123456" 2010 0 (1 # 100);
   stock "123456" 2010 3 (2 # 100); stock "ZZZZZZ" 2010 0 (5 # 100)]%Q.

Definition merged : list Merged.row := merged_df stock_df cei_csv.

(** The run of the report's "Results Summary": documents are stood for by
    their year; 2007 has no PDF, 2021 and 2022 yield nothing, the years of
    the column "Table Extraction" are read by table detection and the others
    by OCR. *)
Definition years : list Z := map Z.of_nat (seq 2002 21).

Definition pdf_of_year (y : Z) : option Z :=
  if y =? 2007 then None else Some y.

Definition by_table (y : Z) : bool :=
  existsb (Z.eqb y) [2008; 2009; 2012; 2016; 2017; 2019].

Definition table_extraction (y : Z) : list Extraction.candidate :=
  if by_table y then [("HSBC USA", 100%Q); ("Misread Inc.", 185%Q)] else [].

Definition parse_text (y : Z) (texts : list string) : list Extraction.candidate :=
  if (y =? 2021) || (y =? 2022) then []
  else map (fun t => (t, 84%Q)) texts.

#[local] Instance report_toolchain : Extraction.Toolchain :=
  {| Extraction.pdf := Z; Extraction.image := Z;
     Extraction.pdf_of_year := pdf_of_year;
     Extraction.table_extraction := table_extraction;
     Extraction.pdf_to_images := fun y => [y];
     Extraction.ocr_text := fun _ => "Aetna Inc.";
     Extraction.parse_text := parse_text;
     Extraction.remove_artifacts := fun cs => cs |}.

Definition run : list (Z * list Extraction.record) * list Extraction.event :=
  Extraction.run years.

End Sample.

(** ** More of the notebook's cells *)

(** Cell 4: [cei_df['score_bin'].value_counts().sort_index()]: the number of
    rows of each score bin, missing bins not counted, in label order. *)
Definition score_dist (cei_df : list Cei.row) : list (string * nat) :=
  map (fun kg : string * list Cei.row => (fst kg, List.length (snd kg)))
      (groupby string_dec String.compare Cei.score_bin cei_df).

(** The key cells of a row of the right frame of the merge
    ([right_on=['cusip6', 'year']]). *)
Definition cei_key (c : Cei.row) : option string * option Z :=
  (Cei.cusip6 c, Cei.year c).

(** Cell 7: [pivot_data[score_bin]], the column of a label ([None] stands
    for the [KeyError] of a label that is no column). *)
Fixpoint position (b : string) (labels : list string) : option nat :=
  match labels with
  | [] => None
  | x :: xs =>
      if String.eqb x b then Some O else option_map S (position b xs)
  end.

Definition pivot_column (p : pivot_table) (b : string)
  : option (list (option Q)) :=
  option_map (fun j => map (fun row => nth j row None) (cells p))
             (position b (columns p)).

(** Cell 7: [not pivot_data[score_bin].isna().all()], the test that guards
    the plot of a column. *)
Definition column_plotted (p : pivot_table) (b : string) : bool :=
  match pivot_column p b with
  | Some col => negb (forallb (fun x => negb (notna x)) col)
  | None => false
  end.

(** Cell 14: [sorted(summary_stats.index)], the order in which the summary
    lines are printed. *)
Definition summary_order (summary_stats : list Summary.row) : list string :=
  sort_by String.compare (map Summary.score_bin summary_stats).

(** A string without the character [-]. *)
Fixpoint no_dash (s : string) : bool :=
  match s with
  | EmptyString => true
  | String c s' => negb (Ascii.eqb c "-") && no_dash s'
  end.

(** * Properties *)

(** ** Strings *)

Module PyFacts.
Import Py.

Lemma append_nil_r (s : string) : s ++ "" = s.
Proof. induction s as [|c s IH]; simpl; [reflexivity | now rewrite IH]. Qed.

Lemma append_assoc (a b c : string) : (a ++ b) ++ c = a ++ (b ++ c).
Proof. induction a as [|x a IH]; simpl; [reflexivity | now rewrite IH]. Qed.

Lemma length_append (a b : string) :
  String.length (a ++ b) = (String.length a + String.length b)%nat.
Proof. induction a as [|x a IH]; simpl; [reflexivity | now rewrite IH]. Qed.

(** [s[:n]] of a string of at least [n] characters is its prefix of [n]
    characters. *)
Lemma slice_to_prefix (n : nat) (s : string) :
  (n <= String.length s)%nat ->
  exists rest, s = slice_to n s ++ rest /\ String.length (slice_to n s) = n.
Proof.
  unfold slice_to. revert s.
  induction n as [|n IH]; intros s Hn.
  - exists s. destruct s; simpl; auto.
  - destruct s as [|c s]; simpl in Hn; [lia|].
    destruct (IH s) as [rest [Hs Hl]]; [lia|].
    exists rest. simpl. split; [now rewrite <- Hs | now rewrite Hl].
Qed.

Lemma lstrip_spec (s : string) :
  exists l, s = l ++ lstrip s /\ all_space l = true
            /\ starts_with_space (lstrip s) = false.
Proof.
  induction s as [|c s [l [Hs [Hl Hf]]]].
  - exists "". auto.
  - simpl. destruct (isspace c) eqn:Hc.
    + exists (String c l). simpl. rewrite Hc, Hl. split; [now rewrite <- Hs | auto].
    + exists "". simpl. auto.
Qed.

Lemma rstrip_spec (s : string) :
  exists r, s = rstrip s ++ r /\ all_space r = true
            /\ ends_with_space (rstrip s) = false.
Proof.
  induction s as [|c s [r [Hs [Hr Hf]]]].
  - exists "". auto.
  - simpl. destruct (rstrip s) as [|c' t] eqn:Ht.
    + destruct (isspace c) eqn:Hc.
      * exists (String c r). simpl in *. rewrite Hc, Hr. subst s. auto.
      * exists r. simpl in *. rewrite Hc. subst s. auto.
    + exists r. simpl in *. split; [now rewrite <- Hs | auto].
Qed.

Lemma rstrip_keeps_start (s : string) :
  starts_with_space s = false -> starts_with_space (rstrip s) = false.
Proof.
  destruct s as [|c s]; simpl; [auto|].
  intros Hc. destruct (rstrip s); [rewrite Hc|]; simpl; auto.
Qed.

(** [strip] removes a run of whitespace at each end and nothing else, and
    what it returns neither starts nor ends with whitespace. *)
Lemma strip_spec (s : string) :
  exists l r, s = l ++ strip s ++ r
              /\ all_space l = true /\ all_space r = true
              /\ starts_with_space (strip s) = false
              /\ ends_with_space (strip s) = false.
Proof.
  unfold strip.
  destruct (lstrip_spec s) as [l [Hs [Hl Hf]]].
  destruct (rstrip_spec (lstrip s)) as [r [Hs' [Hr Hf']]].
  exists l, r. repeat split; auto.
  - now rewrite <- Hs'.
  - now apply rstrip_keeps_start.
Qed.

(** Printing integers. *)

Lemma to_int_not_nil (z : Z) :
  Z.to_int z <> Decimal.Pos Decimal.Nil /\ Z.to_int z <> Decimal.Neg Decimal.Nil.
Proof.
  destruct z as [|p|p]; simpl; split; try discriminate;
    intros [= H]; now apply (DecimalPos.Unsigned.to_uint_nonnil p).
Qed.

Lemma str_of_int_inj (a b : Z) : str_of_int a = str_of_int b -> a = b.
Proof.
  unfold str_of_int. intros H.
  apply DecimalZ.to_int_inj.
  destruct (to_int_not_nil a) as [Ha Ha'], (to_int_not_nil b) as [Hb Hb'].
  pose proof (NilZero.isi _ Ha Ha') as Ia.
  pose proof (NilZero.isi _ Hb Hb') as Ib.
  rewrite H in Ia. congruence.
Qed.

End PyFacts.

(** ** The cell-level functions *)

(** C6.  [get_cusip6] returns [None] exactly when its argument is missing or
    the stripped string form of the argument has fewer than 6 characters; in
    every other case it returns the first 6 characters of the stripped
    string, with no condition on what the characters are. *)
Theorem get_cusip6_spec (cusip : Py.value) :
  let s := Py.strip (Py.str cusip) in
  (get_cusip6 cusip = None
   <-> Py.isna cusip = true \/ (String.length s < 6)%nat)
  /\ (get_cusip6 cusip <> None ->
      exists c6 rest,
        get_cusip6 cusip = Some c6 /\ s = c6 ++ rest
        /\ String.length c6 = 6%nat).
Proof.
  intros s. unfold get_cusip6. fold s.
  destruct (Py.isna cusip) eqn:Hna.
  - split; [tauto | congruence].
  - destruct (Nat.leb_spec 6 (String.length s)) as [Hlen | Hlen].
    + split.
      * split; [discriminate | intros [H | H]; [discriminate | lia]].
      * intros _. destruct (PyFacts.slice_to_prefix 6 s Hlen) as [rest [Hs Hl]].
        exists (Py.slice_to 6 s), rest. auto.
    + split; [tauto | congruence].
Qed.

(** The characters kept need not be digits, and whitespace inside the string
    counts. *)
Example get_cusip6_any_characters :
  get_cusip6 (Py.Str "  ab c-Dxyz ") = Some "ab c-D"
  /\ get_cusip6 (Py.Str "  12345  ") = None
  /\ get_cusip6 (Py.Int 37833100) = Some "378331"
  /\ get_cusip6 (Py.Other "37833100.0") = Some "378331"
  /\ get_cusip6 Py.NaN = None.
Proof. repeat split. Qed.


Lemma floor_of_nineties (s : Q) :
  (90 <= s)%Q -> (s < 100)%Q -> Qfloor (s / 10) = 9.
Proof.
  intros Hlo Hhi.
  assert (H9 : (9 <= s / 10)%Q).
  { apply Qle_shift_div_l; [reflexivity | exact Hlo]. }
  assert (H10 : (s / 10 < 10)%Q).
  { apply Qlt_shift_div_r; [reflexivity | exact Hhi]. }
  apply Qfloor_resp_le in H9. change (Qfloor 9) with 9 in H9.
  pose proof (Qfloor_le (s / 10)) as Hf.
  assert (Hlt : (inject_Z (Qfloor (s / 10)) < inject_Z 10)%Q).
  { eapply Qle_lt_trans; [exact Hf | exact H10]. }
  rewrite <- Zlt_Qlt in Hlt. lia.
Qed.

(** C1.  Every score from 90 up to (not including) 100 is labelled "90-99":
    the label "90-100" of the docstring and of the high-score filter is not
    the one [create_score_bin] gives. *)
Theorem create_score_bin_nineties (s : Q) :
  (90 <= s)%Q -> (s < 100)%Q -> create_score_bin (Some s) = Some "90-99".
Proof.
  intros Hlo Hhi. unfold create_score_bin.
  rewrite (floor_of_nineties s Hlo Hhi). reflexivity.
Qed.

(** The score 95 is one of them. *)
Lemma create_score_bin_nineties_at_95 :
  ((90 <= 95)%Q /\ (95 < 100)%Q)
  /\ create_score_bin (Some 95%Q) = Some "90-99".
Proof.
  split; [split; [discriminate | reflexivity]|].
  apply (create_score_bin_nineties 95%Q); [discriminate | reflexivity].
Defined.

(** The rest of C1's reading of the code: [None] exactly for a missing
    score, and the label of 100 is "100-100". *)
Lemma create_score_bin_none (score : option Q) :
  create_score_bin score = None <-> score = None.
Proof. destruct score; simpl; split; congruence. Qed.

Example create_score_bin_100 : create_score_bin (Some 100%Q) = Some "100-100".
Proof. reflexivity. Qed.

Lemma digits_before_dash (u : Decimal.uint) (r : string) :
  NilEmpty.string_of_uint u ++ String "-" r = "90-100" ->
  NilEmpty.string_of_uint u = "90".
Proof.
  destruct u as [|u|u|u|u|u|u|u|u|u|u]; simpl; try discriminate.
  intros [= H].
  destruct u as [|u|u|u|u|u|u|u|u|u|u]; simpl in *; try discriminate.
  injection H as H.
  destruct u as [|u|u|u|u|u|u|u|u|u|u]; simpl in *; try discriminate.
  reflexivity.
Qed.

Lemma label_never_90_100 (b : Z) :
  Py.str_of_int b ++ "-" ++ Py.str_of_int (Z.min (b + 9) 100) <> "90-100".
Proof.
  intros H.
  assert (Hb : Py.str_of_int b = "90").
  { revert H. generalize (Py.str_of_int (Z.min (b + 9) 100)). intros r.
    unfold Py.str_of_int.
    destruct (Z.to_int b) as [u|u]; simpl; [|discriminate].
    destruct u as [|u|u|u|u|u|u|u|u|u|u]; simpl; try discriminate.
    apply (digits_before_dash (Decimal.D9 u) r). }
  apply (PyFacts.str_of_int_inj b 90) in Hb.
  rewrite Hb in H. discriminate H.
Qed.

(** No score at all is labelled "90-100". *)
Lemma create_score_bin_never_90_100 (score : option Q) :
  create_score_bin score <> Some "90-100".
Proof.
  destruct score as [s|]; [|discriminate].
  unfold create_score_bin. intros [= H].
  exact (label_never_90_100 _ H).
Qed.

(** ** The merge *)

Lemma key_eqb_string (x y : option string) :
  key_eqb String.eqb x y = true <-> x = y.
Proof.
  destruct x as [a|], y as [b|]; simpl; try (split; congruence).
  rewrite String.eqb_eq. split; congruence.
Qed.

Lemma key_eqb_Z (x y : option Z) : key_eqb Z.eqb x y = true <-> x = y.
Proof.
  destruct x as [a|], y as [b|]; simpl; try (split; congruence).
  rewrite Z.eqb_eq. split; congruence.
Qed.

Lemma keys_match_iff (s : Stock.row) (c : Cei.row) :
  keys_match s c = true
  <-> Stock.cusip6 s = Cei.cusip6 c /\ Stock.cei_year s = Cei.year c.
Proof.
  unfold keys_match.
  now rewrite andb_true_iff, key_eqb_string, key_eqb_Z.
Qed.

Lemma matched_pairs_iff (stock_df : list Stock.row) (cei_df : list Cei.row)
  (s : Stock.row) (c : Cei.row) :
  In (s, c) (matched_pairs stock_df cei_df)
  <-> In s stock_df /\ In c cei_df
      /\ Stock.cusip6 s = Cei.cusip6 c /\ Stock.cei_year s = Cei.year c.
Proof.
  unfold matched_pairs. rewrite in_flat_map. split.
  - intros [s' [Hs H]]. apply in_map_iff in H as [c' [[= <- <-] H]].
    apply filter_In in H as [Hc Hk]. apply keys_match_iff in Hk. tauto.
  - intros [Hs [Hc Hk]]. exists s. split; [exact Hs|].
    apply in_map. apply filter_In. split; [exact Hc|].
    now apply keys_match_iff.
Qed.

Lemma matched_pairs_length (stock_df : list Stock.row) (cei_df : list Cei.row) :
  List.length (matched_pairs stock_df cei_df)
  = list_sum (map (fun s => List.length (filter (keys_match s) cei_df))
                  stock_df).
Proof.
  unfold matched_pairs.
  induction stock_df as [|s l IH]; simpl; [reflexivity|].
  now rewrite length_app, length_map, IH.
Qed.

(** The rows of the prepared [cei_df]: each comes from a CSV row whose
    [cusip6] and score are there, and carries the bin of its score. *)
Lemma prepare_cei_iff (cei_csv : list CeiCsv.row) (c : Cei.row) :
  In c (prepare_cei cei_csv)
  <-> exists r, In r cei_csv
        /\ get_cusip6 (CeiCsv.cusip r) <> None
        /\ CeiCsv.cei_score r <> None
        /\ c = {| Cei.cusip := CeiCsv.cusip r; Cei.year := CeiCsv.year r;
                  Cei.cei_score := CeiCsv.cei_score r;
                  Cei.employer := CeiCsv.employer r;
                  Cei.cusip6 := get_cusip6 (CeiCsv.cusip r);
                  Cei.score_bin := create_score_bin (CeiCsv.cei_score r) |}.
Proof.
  unfold prepare_cei, with_score_bin, dropna_cusip6_score, with_cusip6.
  rewrite in_map_iff. split.
  - intros [[r k] [<- H]]. apply filter_In in H as [H Hn].
    apply in_map_iff in H as [r' [[= <- <-] Hr]]. simpl in *.
    apply andb_true_iff in Hn as [Hk Hs].
    exists r'. repeat split; auto.
    + destruct (get_cusip6 (CeiCsv.cusip r')); [discriminate | discriminate Hk].
    + destruct (CeiCsv.cei_score r'); [discriminate | discriminate Hs].
  - intros [r [Hr [Hk [Hs ->]]]].
    exists (r, get_cusip6 (CeiCsv.cusip r)). split; [reflexivity|].
    apply filter_In. split.
    + apply in_map_iff. now exists r.
    + simpl. destruct (get_cusip6 (CeiCsv.cusip r)); [|congruence].
      destruct (CeiCsv.cei_score r); [reflexivity | congruence].
Qed.

Lemma get_cusip6_length (v : Py.value) (c6 : string) :
  get_cusip6 v = Some c6 -> String.length c6 = 6%nat.
Proof.
  unfold get_cusip6. destruct (Py.isna v); [discriminate|].
  destruct (Nat.leb_spec 6 (String.length (Py.strip (Py.str v))))
    as [Hlen | Hlen]; [|discriminate].
  intros [= <-].
  now destruct (PyFacts.slice_to_prefix 6 _ Hlen) as [rest [_ Hl]].
Qed.

Lemma prepare_cei_row (cei_csv : list CeiCsv.row) (c : Cei.row) :
  In c (prepare_cei cei_csv) ->
  (exists c6, Cei.cusip6 c = Some c6 /\ String.length c6 = 6%nat)
  /\ (exists q, Cei.cei_score c = Some q)
  /\ Cei.score_bin c = create_score_bin (Cei.cei_score c)
  /\ Cei.score_bin c <> None.
Proof.
  intros H. apply prepare_cei_iff in H as [r [_ [Hk [Hs ->]]]]. simpl.
  destruct (get_cusip6 (CeiCsv.cusip r)) as [c6|] eqn:Hc; [|congruence].
  destruct (CeiCsv.cei_score r) as [q|] eqn:Hq; [|congruence].
  repeat split.
  - exists c6. split; [reflexivity|]. now apply (get_cusip6_length _ _ Hc).
  - now exists q.
  - discriminate.
Qed.

(** C3.  The merge is an inner equi-join on ([cusip6], year): the joined
    pairs are exactly the pairs of a stock row and a CEI row with equal
    [cusip6] and with the year of the stock row's release date equal to the
    CEI row's [year]; [merged_df] has one row per joined pair; a stock row
    or a CEI row without a partner is in no joined pair; and on the prepared
    CEI frame the common [cusip6] has 6 characters. *)
Theorem merge_is_inner_equi_join
  (stock_df : list Stock.row) (cei_df : list Cei.row) :
  (forall s c,
      In (s, c) (matched_pairs stock_df cei_df)
      <-> In s stock_df /\ In c cei_df
          /\ Stock.cusip6 s = Cei.cusip6 c
          /\ option_map year_of (Stock.cei_release_date s) = Cei.year c)
  /\ merge_inner stock_df cei_df = map join (matched_pairs stock_df cei_df)
  /\ List.length (merge_inner stock_df cei_df)
     = list_sum (map (fun s => List.length (filter (keys_match s) cei_df))
                     stock_df)
  /\ (forall s,
         (forall c, In c cei_df ->
                    ~ (Stock.cusip6 s = Cei.cusip6 c
                       /\ Stock.cei_year s = Cei.year c)) ->
         forall c, ~ In (s, c) (matched_pairs stock_df cei_df))
  /\ (forall c,
         (forall s, In s stock_df ->
                    ~ (Stock.cusip6 s = Cei.cusip6 c
                       /\ Stock.cei_year s = Cei.year c)) ->
         forall s, ~ In (s, c) (matched_pairs stock_df cei_df))
  /\ (forall cei_csv s c,
         cei_df = prepare_cei cei_csv ->
         In (s, c) (matched_pairs stock_df cei_df) ->
         exists c6, Stock.cusip6 s = Some c6 /\ Cei.cusip6 c = Some c6
                    /\ String.length c6 = 6%nat).
Proof.
  split; [intros s c; apply matched_pairs_iff|].
  split; [reflexivity|].
  split; [unfold merge_inner; now rewrite length_map, matched_pairs_length|].
  split; [|split].
  - intros s Hno c H. apply matched_pairs_iff in H as [_ [Hc Hk]].
    exact (Hno c Hc Hk).
  - intros c Hno s H. apply matched_pairs_iff in H as [Hs [_ Hk]].
    exact (Hno s Hs Hk).
  - intros cei_csv s c -> H. apply matched_pairs_iff in H as [_ [Hc [Hk _]]].
    destruct (prepare_cei_row _ _ Hc) as [[c6 [H6 Hl]] _].
    exists c6. rewrite Hk. auto.
Qed.

Example merge_sample :
  List.length (merge_inner Sample.stock_df (prepare_cei Sample.cei_csv)) = 9%nat
  /\ map Merged.score_bin
         (merge_inner [Sample.stock "123456" 2010 0 (1 # 100)]
                      (prepare_cei Sample.cei_csv))
     = [Some "0-9"; Some "0-9"; Some "10-19"]
  /\ merge_inner [Sample.stock "ZZZZZZ" 2010 0 (5 # 100)]
                 (prepare_cei Sample.cei_csv) = []
  /\ merge_inner [Sample.stock "123456" 2011 0 (5 # 100)]
                 (prepare_cei Sample.cei_csv) = [].
Proof. repeat split. Qed.

(** ** Sorting and grouping *)

Section SortingFacts.
Context {K : Type}.
Variable cmp : K -> K -> comparison.

Lemma insert_sorted_perm (k : K) (l : list K) :
  Permutation (k :: l) (insert_sorted cmp k l).
Proof.
  induction l as [|x xs IH]; simpl; [apply Permutation_refl|].
  destruct (cmp k x); try apply Permutation_refl.
  eapply Permutation_trans; [apply perm_swap|].
  now apply perm_skip.
Qed.

Lemma sort_by_perm (l : list K) : Permutation l (sort_by cmp l).
Proof.
  induction l as [|x xs IH]; simpl; [apply perm_nil|].
  eapply Permutation_trans; [|apply insert_sorted_perm].
  now apply perm_skip.
Qed.

Lemma sort_by_In (l : list K) (k : K) : In k (sort_by cmp l) <-> In k l.
Proof.
  split; apply Permutation_in;
    [apply Permutation_sym|]; apply sort_by_perm.
Qed.

Lemma sort_by_NoDup (l : list K) : NoDup l -> NoDup (sort_by cmp l).
Proof. apply Permutation_NoDup, sort_by_perm. Qed.

End SortingFacts.

Section GroupByFacts.
Context {R K : Type}.
Variable K_eq_dec : forall a b : K, {a = b} + {a <> b}.
Variable cmp : K -> K -> comparison.
Variable key : R -> option K.

Lemma has_key_iff (k : K) (r : R) :
  has_key K_eq_dec key k r = true <-> key r = Some k.
Proof.
  unfold has_key. destruct (key r) as [k'|]; [|split; discriminate].
  destruct (K_eq_dec k k'); split; congruence.
Qed.

Lemma keys_of_iff (rows : list R) (k : K) :
  In k (keys_of key rows) <-> exists r, In r rows /\ key r = Some k.
Proof.
  induction rows as [|r rs IH]; simpl.
  - split; [tauto | intros [r [[] _]]].
  - destruct (key r) as [k'|] eqn:Hk; simpl; rewrite IH; split.
    + intros [<- | [r' [Hr' H]]]; [exists r; auto | exists r'; auto].
    + intros [r' [[<- | Hr'] H]]; [left; congruence | right; exists r'; auto].
    + intros [r' [Hr' H]]. exists r'; auto.
    + intros [r' [[<- | Hr'] H]]; [congruence | exists r'; auto].
Qed.

(** A group of [groupby]: its key is the key of some row, and its rows are
    the rows of that key, in frame order. *)
Lemma groupby_iff (rows : list R) (k : K) (g : list R) :
  In (k, g) (groupby K_eq_dec cmp key rows)
  <-> (exists r, In r rows /\ key r = Some k)
      /\ g = filter (has_key K_eq_dec key k) rows.
Proof.
  unfold groupby. rewrite in_map_iff. split.
  - intros [k' [[= <- <-] H]].
    apply sort_by_In, nodup_In, keys_of_iff in H. auto.
  - intros [H ->]. exists k. split; [reflexivity|].
    now apply sort_by_In, nodup_In, keys_of_iff.
Qed.

(** One group per key. *)
Lemma groupby_keys_NoDup (rows : list R) :
  NoDup (map fst (groupby K_eq_dec cmp key rows)).
Proof.
  unfold groupby. rewrite map_map. simpl. rewrite map_id.
  apply sort_by_NoDup, NoDup_nodup.
Qed.

(** The rows of a group are rows of the frame, all with the group's key. *)
Lemma groupby_rows (rows : list R) (k : K) (g : list R) :
  In (k, g) (groupby K_eq_dec cmp key rows) ->
  g <> [] /\ forall r, In r g -> In r rows /\ key r = Some k.
Proof.
  intros H. apply groupby_iff in H as [[r [Hr Hk]] ->]. split.
  - intros Hnil.
    assert (Hin : In r (filter (has_key K_eq_dec key k) rows)).
    { apply filter_In. split; [exact Hr | now apply has_key_iff]. }
    rewrite Hnil in Hin. exact Hin.
  - intros r' H. apply filter_In in H as [H1 H2].
    apply has_key_iff in H2. auto.
Qed.

End GroupByFacts.

Lemma filter_filter {A : Type} (f g : A -> bool) (l : list A) :
  filter f (filter g l) = filter (fun x => g x && f x) l.
Proof.
  induction l as [|x xs IH]; simpl; [reflexivity|].
  destruct (g x); simpl; [destruct (f x); now rewrite IH | exact IH].
Qed.

(** ** The invariant of the merged rows *)

Lemma merged_df_row (stock_df : list Stock.row) (cei_csv : list CeiCsv.row)
  (m : Merged.row) :
  In m (merged_df stock_df cei_csv)
  <-> exists s c,
        In s stock_df /\ In c (prepare_cei cei_csv)
        /\ Stock.cusip6 s = Cei.cusip6 c /\ Stock.cei_year s = Cei.year c
        /\ Stock.RET s <> None /\ m = join (s, c).
Proof.
  unfold merged_df, dropna_RET, merge_inner.
  rewrite filter_In, in_map_iff. split.
  - intros [[[s c] [<- H]] Hret]. apply matched_pairs_iff in H.
    exists s, c. simpl in Hret.
    destruct (Stock.RET s); [|discriminate]. intuition discriminate.
  - intros [s [c [Hs [Hc [Hk [Hy [Hret ->]]]]]]]. split.
    + exists (s, c). split; [reflexivity|]. now apply matched_pairs_iff.
    + simpl. destruct (Stock.RET s); [reflexivity | congruence].
Qed.

Lemma merged_df_row_ok (stock_df : list Stock.row) (cei_csv : list CeiCsv.row)
  (m : Merged.row) :
  In m (merged_df stock_df cei_csv) ->
  row_ok m = true
  /\ Merged.score_bin m = create_score_bin (Merged.cei_score m).
Proof.
  intros H. apply merged_df_row in H
    as [s [c [_ [Hc [Hk [_ [Hret ->]]]]]]].
  destruct (prepare_cei_row _ _ Hc) as [[c6 [H6 Hl]] [[q Hq] [Hb Hbn]]].
  unfold row_ok. simpl. split; [|exact Hb].
  rewrite Hk, H6, Hl, Hq.
  destruct (Cei.score_bin c); [|congruence].
  destruct (Stock.RET s); [reflexivity | congruence].
Qed.

Lemma row_ok_fields (m : Merged.row) :
  row_ok m = true
  <-> (exists c6, Merged.cusip6 m = Some c6 /\ String.length c6 = 6%nat)
      /\ Merged.cei_score m <> None /\ Merged.score_bin m <> None
      /\ Merged.RET m <> None.
Proof.
  unfold row_ok.
  destruct (Merged.cusip6 m) as [c|], (Merged.cei_score m),
    (Merged.score_bin m), (Merged.RET m); simpl;
    rewrite ?andb_true_r, ?andb_false_r; split;
    try discriminate; try (intros [[c6 [H _]] _]; discriminate);
    try (intros [_ H]; exfalso; intuition congruence).
  - intros H. apply Nat.eqb_eq in H. repeat split; try discriminate.
    now exists c.
  - intros [[c6 [[= ->] H]] _]. now apply Nat.eqb_eq.
Qed.

Lemma groups_keep (K : Type) (K_eq_dec : forall a b : K, {a = b} + {a <> b})
  (cmp : K -> K -> comparison) (key : Merged.row -> option K)
  (rows : list Merged.row) (k : K) (g : list Merged.row) :
  Forall (fun m => row_ok m = true) rows ->
  In (k, g) (groupby K_eq_dec cmp key rows) ->
  Forall (fun m => row_ok m = true) g.
Proof.
  intros Hall H. apply groupby_rows in H as [_ H].
  apply Forall_forall. intros m Hm.
  rewrite Forall_forall in Hall. apply Hall. now apply H.
Qed.

Lemma firm_event_returns_iff (merged : list Merged.row) (r : FirmEvent.row) :
  In r (firm_event_returns merged)
  <-> (exists m, In m (event_window merged)
                 /\ firm_key m = Some (firm_event_key r))
      /\ FirmEvent.event_return r
         = Qsum (RET_values
                   (filter (has_key str_Z_str_eq_dec firm_key (firm_event_key r))
                           (event_window merged))).
Proof.
  unfold firm_event_returns. rewrite in_map_iff. split.
  - intros [[[[c y] b] g] [<- H]]. apply groupby_iff in H as [H ->].
    unfold firm_event_key. simpl. auto.
  - intros [H Hsum].
    exists (firm_event_key r,
            filter (has_key str_Z_str_eq_dec firm_key (firm_event_key r))
                   (event_window merged)).
    split.
    + destruct r as [c y b v]. unfold firm_event_key in *. simpl in *.
      now rewrite Hsum.
    + apply groupby_iff. auto.
Qed.

Lemma yearly_analysis_row (std : list Q -> option Q)
  (merged : list Merged.row) (r : Yearly.row) :
  In r (yearly_analysis std merged) ->
  exists m, In m merged
            /\ yearly_key m
               = Some (Yearly.year r, Yearly.score_bin r,
                       Yearly.days_from_release r).
Proof.
  unfold yearly_analysis. rewrite in_map_iff.
  intros [[[[y b] d] g] [<- H]]. apply groupby_iff in H as [H _]. exact H.
Qed.

Lemma overall_analysis_row (std : list Q -> option Q) (np_sqrt : Q -> option Q)
  (merged : list Merged.row) (r : Overall.row) :
  In r (overall_analysis std np_sqrt merged) ->
  exists m, In m merged
            /\ overall_key m
               = Some (Overall.score_bin r, Overall.days_from_release r).
Proof.
  unfold overall_analysis. rewrite in_map_iff.
  intros [[[b d] g] [<- H]]. apply groupby_iff in H as [H _]. exact H.
Qed.

Lemma pivot_columns (rows : list Yearly.row) (b : string) :
  In b (columns (pivot rows)) <-> In b (map Yearly.score_bin rows).
Proof. unfold pivot. simpl. now rewrite sort_by_In, nodup_In. Qed.

(** C5.  Every row of [merged_df] as the later cells read it has a [cusip6]
    of exactly 6 characters and a score, a score bin and a return that are
    not missing; the filter of the event window, the three groupings and the
    pivot keep it: their rows are rows of [merged_df], and the [cusip6] and
    score bins they carry are those of such rows. *)
Theorem merged_rows_invariant
  (std : list Q -> option Q) (np_sqrt : Q -> option Q)
  (stock_df : list Stock.row) (cei_csv : list CeiCsv.row) :
  let merged := merged_df stock_df cei_csv in
  let ok := fun m => row_ok m = true in
  Forall ok merged
  /\ Forall ok (event_window merged)
  /\ (forall k g,
         In (k, g) (groupby Z_str_Z_eq_dec cmp_Z_str_Z yearly_key merged) ->
         Forall ok g)
  /\ (forall k g,
         In (k, g) (groupby str_Z_eq_dec cmp_str_Z overall_key merged) ->
         Forall ok g)
  /\ (forall k g,
         In (k, g) (groupby str_Z_str_eq_dec cmp_str_Z_str firm_key
                            (event_window merged)) ->
         Forall ok g)
  /\ (forall r,
         In r (firm_event_returns merged) ->
         String.length (FirmEvent.cusip6 r) = 6%nat
         /\ exists m, In m merged /\ ok m
                      /\ Merged.cusip6 m = Some (FirmEvent.cusip6 r)
                      /\ Merged.score_bin m = Some (FirmEvent.score_bin r))
  /\ (forall r,
         In r (yearly_analysis std merged) ->
         exists m, In m merged /\ ok m
                   /\ Merged.score_bin m = Some (Yearly.score_bin r))
  /\ (forall r,
         In r (overall_analysis std np_sqrt merged) ->
         exists m, In m merged /\ ok m
                   /\ Merged.score_bin m = Some (Overall.score_bin r))
  /\ (forall year b,
         In b (columns (pivot (year_data (yearly_analysis std merged) year))) ->
         exists m, In m merged /\ ok m /\ Merged.score_bin m = Some b).
Proof.
  intros merged ok.
  assert (Hall : Forall ok merged).
  { apply Forall_forall. intros m Hm.
    now apply (merged_df_row_ok stock_df cei_csv). }
  assert (Hwin : Forall ok (event_window merged)).
  { apply Forall_forall. intros m Hm. apply filter_In in Hm as [Hm _].
    rewrite Forall_forall in Hall. now apply Hall. }
  assert (Hyear : forall r, In r (yearly_analysis std merged) ->
            exists m, In m merged /\ ok m
                      /\ Merged.score_bin m = Some (Yearly.score_bin r)).
  { intros r Hr. apply yearly_analysis_row in Hr as [m [Hm Hk]].
    exists m. split; [exact Hm|]. split.
    - rewrite Forall_forall in Hall. now apply Hall.
    - unfold yearly_key in Hk.
      destruct (Merged.year m), (Merged.score_bin m),
        (Merged.days_from_release m); congruence. }
  split; [exact Hall|]. split; [exact Hwin|].
  split; [intros k g; now apply groups_keep|].
  split; [intros k g; now apply groups_keep|].
  split; [intros k g; now apply groups_keep|].
  split; [|split; [exact Hyear|split]].
  - intros r Hr. apply firm_event_returns_iff in Hr as [[m [Hm Hk]] _].
    apply filter_In in Hm as [Hm _].
    assert (Hok : ok m) by (rewrite Forall_forall in Hall; now apply Hall).
    unfold firm_key, firm_event_key in Hk.
    destruct (Merged.cusip6 m) as [c|] eqn:Hc; [|discriminate].
    destruct (Merged.year m); [|discriminate].
    destruct (Merged.score_bin m) as [b|] eqn:Hb; [|discriminate].
    injection Hk as <- _ <-. split.
    + apply row_ok_fields in Hok as [[c6 [H6 Hl]] _]. congruence.
    + exists m. rewrite Hc, Hb. auto.
  - intros r Hr. apply overall_analysis_row in Hr as [m [Hm Hk]].
    exists m. split; [exact Hm|]. split.
    + rewrite Forall_forall in Hall. now apply Hall.
    + unfold overall_key in Hk.
      destruct (Merged.score_bin m), (Merged.days_from_release m);
        congruence.
  - intros year b Hb. apply pivot_columns, in_map_iff in Hb as [r [<- Hr]].
    apply filter_In in Hr as [Hr _]. now apply Hyear.
Qed.

Example merged_rows_invariant_sample :
  forallb row_ok Sample.merged = true /\ List.length Sample.merged = 9%nat.
Proof. split; reflexivity. Qed.

(** ** Event-window returns *)

Lemma event_window_group (merged : list Merged.row) (k : string * Z * string) :
  filter (has_key str_Z_str_eq_dec firm_key k) (event_window merged)
  = group_window_rows merged k.
Proof. unfold event_window, group_window_rows. apply filter_filter. Qed.

Lemma group_window_sum (merged : list Merged.row)
  (r : FirmEvent.row) :
  In r (firm_event_returns merged) ->
  FirmEvent.event_return r
  = Qsum (RET_values (group_window_rows merged (firm_event_key r)))
  /\ group_window_rows merged (firm_event_key r) <> [].
Proof.
  intros Hr. apply firm_event_returns_iff in Hr as [[m [Hm Hk]] Hsum].
  rewrite event_window_group in Hsum. split; [exact Hsum|].
  rewrite <- event_window_group. intros Hnil.
  assert (Hin : In m (filter (has_key str_Z_str_eq_dec firm_key
                                      (firm_event_key r))
                             (event_window merged))).
  { apply filter_In. split; [exact Hm | now apply has_key_iff]. }
  rewrite Hnil in Hin. exact Hin.
Qed.

(** C4, as the code has it.  [firm_event_returns] has one row per firm, year
    and score bin with a row of [merged_df] in the event window, and its
    event return is the sum of [RET] over exactly the rows of that firm, year
    and score bin whose [days_from_release] lies between -3 and 3 inclusive;
    rows outside the window, or of another group, contribute nothing. *)
Theorem event_return_is_group_window_sum (merged : list Merged.row) :
  (forall r,
      In r (firm_event_returns merged) ->
      FirmEvent.event_return r
      = Qsum (RET_values (group_window_rows merged (firm_event_key r)))
      /\ group_window_rows merged (firm_event_key r) <> [])
  /\ (forall m k,
         In m merged ->
         between (-3) 3 (Merged.days_from_release m) = true ->
         firm_key m = Some k ->
         exists r, In r (firm_event_returns merged) /\ firm_event_key r = k)
  /\ (forall m k,
         In m (group_window_rows merged k)
         <-> In m merged
             /\ (exists d, Merged.days_from_release m = Some d
                           /\ -3 <= d <= 3)
             /\ firm_key m = Some k)
  /\ NoDup (map firm_event_key (firm_event_returns merged)).
Proof.
  split; [|split; [|split]].
  - intros r Hr. now apply group_window_sum.
  - intros m [[c y] b] Hm Hd Hk.
    exists {| FirmEvent.cusip6 := c; FirmEvent.year := y;
              FirmEvent.score_bin := b;
              FirmEvent.event_return :=
                Qsum (RET_values
                        (filter (has_key str_Z_str_eq_dec firm_key (c, y, b))
                                (event_window merged))) |}.
    split; [|reflexivity].
    apply firm_event_returns_iff. split; [|reflexivity].
    exists m. split; [|exact Hk].
    apply filter_In. auto.
  - intros m k. unfold group_window_rows.
    rewrite filter_In, andb_true_iff, has_key_iff. unfold between.
    destruct (Merged.days_from_release m) as [d|]; split.
    + intros [Hm [Hd Hk]]. apply andb_true_iff in Hd as [H1 H2].
      repeat split; auto. exists d. split; [reflexivity | lia].
    + intros [Hm [[d' [[= <-] Hd]] Hk]]. repeat split; auto.
      apply andb_true_iff. split; lia.
    + intros [_ [H _]]. discriminate.
    + intros [_ [[d [H _]] _]]. discriminate.
  - unfold firm_event_returns. rewrite map_map.
    rewrite (map_ext _ fst).
    + apply groupby_keys_NoDup.
    + intros [[[c y] b] g]. reflexivity.
Qed.

Example event_returns_sample :
  map (fun r => (firm_event_key r, Qred (FirmEvent.event_return r)))
      (firm_event_returns Sample.merged)
  = [(("123456", 2010, "0-9"), (3 # 50)%Q);
     (("123456", 2010, "10-19"), (3 # 100)%Q)].
Proof. vm_compute. reflexivity. Qed.

(** C4 as stated fails where a firm-year has rows in two score bins: the
    firm 123456 has two event returns for 2010, and neither is the sum of
    the firm-year's returns in the window. *)
Lemma event_return_not_firm_year_sum :
  ~ (forall r,
        In r (firm_event_returns Sample.merged) ->
        (FirmEvent.event_return r
         == firm_year_window_sum Sample.merged
              (FirmEvent.cusip6 r) (FirmEvent.year r))%Q).
Proof.
  intros H.
  assert (Hin : exists r, In r (firm_event_returns Sample.merged)
                          /\ firm_event_key r = ("123456", 2010, "0-9")).
  { eexists. split; [left; reflexivity | reflexivity]. }
  destruct Hin as [r [Hr Hk]]. specialize (H r Hr).
  revert H. vm_compute in Hr.
  destruct Hr as [<- | [<- | []]]; vm_compute; discriminate.
Qed.

Lemma firm_key_iff (m : Merged.row) (c : string) (y : Z) (b : string) :
  firm_key m = Some (c, y, b)
  <-> Merged.cusip6 m = Some c /\ Merged.year m = Some y
      /\ Merged.score_bin m = Some b.
Proof.
  unfold firm_key.
  destruct (Merged.cusip6 m), (Merged.year m), (Merged.score_bin m);
    split; try discriminate; try (intros [H1 [H2 H3]]; discriminate).
  - intros [= -> -> ->]. auto.
  - intros [[= ->] [[= ->] [= ->]]]. reflexivity.
Qed.

(** Where the rows of a firm-year in the window all carry one score bin, the
    event return is the firm-year's sum. *)
Lemma event_return_single_bin (merged : list Merged.row) (r : FirmEvent.row) :
  In r (firm_event_returns merged) ->
  (forall m,
      In m (firm_year_window_rows merged (FirmEvent.cusip6 r) (FirmEvent.year r)) ->
      Merged.score_bin m = Some (FirmEvent.score_bin r)) ->
  FirmEvent.event_return r
  = firm_year_window_sum merged (FirmEvent.cusip6 r) (FirmEvent.year r).
Proof.
  intros Hr Hbin.
  destruct (group_window_sum merged r Hr) as [-> _].
  unfold firm_year_window_sum. f_equal. f_equal.
  unfold group_window_rows, firm_year_window_rows in *.
  apply filter_ext_in. intros m Hm.
  destruct (between (-3) 3 (Merged.days_from_release m)) eqn:Hd; simpl;
    [|reflexivity].
  destruct (key_eqb String.eqb (Merged.cusip6 m) (Some (FirmEvent.cusip6 r))
            && key_eqb Z.eqb (Merged.year m) (Some (FirmEvent.year r)))
    eqn:Hcy.
  - apply andb_true_iff in Hcy as [Hc Hy].
    assert (Hin : In m (filter
              (fun m => between (-3) 3 (Merged.days_from_release m)
                        && key_eqb String.eqb (Merged.cusip6 m)
                                   (Some (FirmEvent.cusip6 r))
                        && key_eqb Z.eqb (Merged.year m)
                                   (Some (FirmEvent.year r))) merged)).
    { apply filter_In. split; [exact Hm|]. now rewrite Hd, Hc, Hy. }
    apply Hbin in Hin.
    apply key_eqb_string in Hc. apply key_eqb_Z in Hy.
    apply has_key_iff. apply firm_key_iff. auto.
  - destruct (has_key str_Z_str_eq_dec firm_key (firm_event_key r) m) eqn:Hk;
      [|reflexivity].
    apply has_key_iff, firm_key_iff in Hk as [Hc [Hy _]].
    apply key_eqb_string in Hc. apply key_eqb_Z in Hy.
    rewrite Hc, Hy in Hcy. discriminate.
Qed.

(** ** The significance test *)

Lemma length_pos_iff {A : Type} (l : list A) :
  (0 <? List.length l)%nat = true <-> l <> [].
Proof.
  destruct l; simpl; split; intros H; try discriminate; try reflexivity.
  now contradiction H.
Qed.

(** C2.  The high group is the event returns of exactly the rows of
    [firm_event_returns] whose score bin is "90-100", the low group those of
    exactly the rows whose score bin is "0-9" or "10-19"; the t-test is run
    on the two groups if and only if both have a row, and otherwise the
    outcome is the report of insufficient data, with no statistic. *)
Theorem significance_test_groups
  (ttest_ind : list Q -> list Q -> option Q * option Q)
  (fer : list FirmEvent.row) :
  high_scores fer
  = map FirmEvent.event_return
        (filter (fun r => String.eqb (FirmEvent.score_bin r) "90-100") fer)
  /\ low_scores fer
     = map FirmEvent.event_return
           (filter (fun r => String.eqb (FirmEvent.score_bin r) "0-9"
                             || String.eqb (FirmEvent.score_bin r) "10-19")
                   fer)
  /\ (forall v,
         In v (high_scores fer)
         <-> exists r, In r fer /\ FirmEvent.score_bin r = "90-100"
                       /\ FirmEvent.event_return r = v)
  /\ (forall v,
         In v (low_scores fer)
         <-> exists r, In r fer
                       /\ (FirmEvent.score_bin r = "0-9"
                           \/ FirmEvent.score_bin r = "10-19")
                       /\ FirmEvent.event_return r = v)
  /\ ((high_scores fer <> [] /\ low_scores fer <> [])
      <-> significance_test ttest_ind fer
          = Tested (fst (ttest_ind (high_scores fer) (low_scores fer)))
                   (snd (ttest_ind (high_scores fer) (low_scores fer))))
  /\ (~ (high_scores fer <> [] /\ low_scores fer <> [])
      <-> significance_test ttest_ind fer
          = Insufficient "Insufficient data for statistical test").
Proof.
  assert (Hhigh : forall r, Py.isin (FirmEvent.score_bin r) ["90-100"]
                            = String.eqb (FirmEvent.score_bin r) "90-100").
  { intros r. unfold Py.isin. simpl. now rewrite orb_false_r. }
  assert (Hlow : forall r, Py.isin (FirmEvent.score_bin r) ["0-9"; "10-19"]
                           = String.eqb (FirmEvent.score_bin r) "0-9"
                             || String.eqb (FirmEvent.score_bin r) "10-19").
  { intros r. unfold Py.isin. simpl. now rewrite orb_false_r. }
  assert (Htest :
    high_scores fer <> [] /\ low_scores fer <> []
    <-> ((0 <? List.length (high_scores fer))%nat
         && (0 <? List.length (low_scores fer))%nat) = true).
  { now rewrite andb_true_iff, !length_pos_iff. }
  split; [unfold high_scores; f_equal; now apply filter_ext|].
  split; [unfold low_scores; f_equal; now apply filter_ext|].
  split; [|split; [|split]].
  - intros v. unfold high_scores. rewrite in_map_iff. split.
    + intros [r [<- H]]. apply filter_In in H as [Hr Hb].
      rewrite Hhigh in Hb. apply String.eqb_eq in Hb. exists r. auto.
    + intros [r [Hr [Hb <-]]]. exists r. split; [reflexivity|].
      apply filter_In. split; [exact Hr|]. rewrite Hhigh.
      now apply String.eqb_eq.
  - intros v. unfold low_scores. rewrite in_map_iff. split.
    + intros [r [<- H]]. apply filter_In in H as [Hr Hb].
      rewrite Hlow in Hb. apply orb_true_iff in Hb.
      rewrite !String.eqb_eq in Hb. exists r. auto.
    + intros [r [Hr [Hb <-]]]. exists r. split; [reflexivity|].
      apply filter_In. split; [exact Hr|]. rewrite Hlow.
      apply orb_true_iff. now rewrite !String.eqb_eq.
  - unfold significance_test.
    destruct ((0 <? List.length (high_scores fer))%nat
              && (0 <? List.length (low_scores fer))%nat) eqn:Hb.
    + rewrite Htest.
      destruct (ttest_ind (high_scores fer) (low_scores fer)); simpl.
      split; reflexivity.
    + rewrite Htest. split; discriminate.
  - unfold significance_test.
    destruct ((0 <? List.length (high_scores fer))%nat
              && (0 <? List.length (low_scores fer))%nat) eqn:Hb.
    + rewrite Htest.
      destruct (ttest_ind (high_scores fer) (low_scores fer)).
      split; [intros H; now contradiction H | discriminate].
    + rewrite Htest. split; [reflexivity | intros _; discriminate].
Qed.

Example significance_test_sample
  (ttest_ind : list Q -> list Q -> option Q * option Q) :
  let fer :=
    [ {| FirmEvent.cusip6 := "AAAAAA"; FirmEvent.year := 2010;
         FirmEvent.score_bin := "90-100"; FirmEvent.event_return := 1 # 100 |};
      {| FirmEvent.cusip6 := "BBBBBB"; FirmEvent.year := 2010;
         FirmEvent.score_bin := "10-19"; FirmEvent.event_return := 2 # 100 |};
      {| FirmEvent.cusip6 := "CCCCCC"; FirmEvent.year := 2010;
         FirmEvent.score_bin := "90-99"; FirmEvent.event_return := 3 # 100 |} ] in
  high_scores fer = [1 # 100] /\ low_scores fer = [2 # 100]
  /\ significance_test ttest_ind fer
     = Tested (fst (ttest_ind [1 # 100] [2 # 100]))
              (snd (ttest_ind [1 # 100] [2 # 100]))
  /\ significance_test ttest_ind (tl fer)
     = Insufficient "Insufficient data for statistical test".
Proof.
  intros fer. split; [reflexivity|]. split; [reflexivity|].
  split; [|reflexivity].
  unfold significance_test.
  change (high_scores fer) with [1 # 100]%Q.
  change (low_scores fer) with [2 # 100]%Q. simpl.
  now destruct (ttest_ind [1 # 100] [2 # 100]).
Qed.

(** On the frames the notebook builds, no row has the score bin "90-100"
    (no score is given that label), so the high group is empty and the test
    is not run, whatever the data. *)
Lemma high_scores_empty (stock_df : list Stock.row)
  (cei_csv : list CeiCsv.row) :
  high_scores (firm_event_returns (merged_df stock_df cei_csv)) = [].
Proof.
  destruct (high_scores _) as [|v l] eqn:Hh; [reflexivity|].
  assert (Hv : In v (high_scores
                       (firm_event_returns (merged_df stock_df cei_csv))))
    by (rewrite Hh; now left).
  unfold high_scores in Hv. apply in_map_iff in Hv as [r [_ Hr]].
  apply filter_In in Hr as [Hr Hb].
  unfold Py.isin in Hb. simpl in Hb. rewrite orb_false_r in Hb.
  apply String.eqb_eq in Hb.
  apply firm_event_returns_iff in Hr as [[m [Hm Hk]] _].
  apply filter_In in Hm as [Hm _].
  apply merged_df_row_ok in Hm as [_ Hbin].
  apply firm_key_iff in Hk as [_ [_ Hk]].
  rewrite Hk, Hb in Hbin. symmetry in Hbin.
  now apply create_score_bin_never_90_100 in Hbin.
Qed.

Lemma significance_test_not_run
  (ttest_ind : list Q -> list Q -> option Q * option Q)
  (stock_df : list Stock.row) (cei_csv : list CeiCsv.row) :
  significance_test ttest_ind (firm_event_returns (merged_df stock_df cei_csv))
  = Insufficient "Insufficient data for statistical test".
Proof.
  unfold significance_test. now rewrite high_scores_empty.
Qed.

(** ** The extraction pipeline of the report *)

Module ExtractionFacts.
Import Extraction.
#[local] Open Scope list_scope.

Lemma valid_score_iff (q : Q) :
  valid_score q = true <-> (0 <= q)%Q /\ (q <= 100)%Q.
Proof.
  unfold valid_score. now rewrite andb_true_iff, !Qle_bool_iff.
Qed.

Lemma emitted_valid (year : Z) (cs : list candidate) :
  Forall (fun r => Year r = year /\ valid_score (CEI_Score r) = true)
         (map (emit year) (validate_scores cs)).
Proof.
  apply Forall_forall. intros r Hr.
  apply in_map_iff in Hr as [c [<- Hc]].
  apply filter_In in Hc as [_ Hv]. simpl. auto.
Qed.

(** The year ranges of the three format eras are disjoint and cover every
    year: a year lies in the range of exactly one era. *)
Lemma era_ranges_partition (year : Z) :
  exists e, in_era_range e year = true
            /\ forall e', in_era_range e' year = true -> e' = e.
Proof.
  destruct (Z.leb_spec 2015 year) as [H15 | H15];
    [exists Modern | destruct (Z.leb_spec 2010 year) as [H10 | H10];
                     [exists MidEra | exists Legacy]];
    (split; [simpl; lia|]);
    intros [| |]; simpl; intros H; try reflexivity; exfalso; lia.
Qed.

Section Facts.
Context {T : Toolchain}.

Lemma ocr_pipeline_run (year : Z) (doc : pdf) (log : list event) :
  ocr_pipeline year doc log = (ocr_records year doc, log ++ ocr_steps year).
Proof.
  unfold ocr_pipeline, Extraction.ocr_records, ocr_steps, bind,
    tell, ret.
  simpl. now rewrite <- !app_assoc.
Qed.

Lemma extracted_records_valid (year : Z) (doc : pdf) :
  Forall (fun r => Year r = year /\ valid_score (CEI_Score r) = true)
         (extracted_records year doc).
Proof.
  unfold extracted_records.
  pose proof (emitted_valid year (table_extraction doc)) as Ht.
  destruct (map (emit year) (validate_scores (table_extraction doc)));
    [apply emitted_valid | exact Ht].
Qed.

Lemma process_year_run (year : Z) (log : list event) :
  process_year year log
  = (option_map (pair year) (dataset_of_year year), log ++ year_events year).
Proof.
  unfold process_year, Extraction.dataset_of_year,
    year_events, Extraction.extract_document,
    extracted_records.
  destruct (pdf_of_year year) as [doc|]; [|reflexivity].
  unfold bind.
  destruct (map (emit year) (validate_scores (table_extraction doc)))
    as [|r rs] eqn:Ht.
  - rewrite ocr_pipeline_run.
    destruct (ocr_records year doc) as [|r rs]; unfold tell, ret; simpl;
      now rewrite <- app_assoc.
  - unfold ret, tell. simpl. reflexivity.
Qed.

Lemma process_years_run (years : list Z) (log : list event) :
  process_years years log
  = (datasets years, log ++ flat_map year_events years).
Proof.
  revert log. induction years as [|y ys IH]; intros log; simpl.
  - unfold ret. now rewrite app_nil_r.
  - unfold bind. rewrite process_year_run, IH. unfold ret.
    rewrite <- app_assoc.
    now destruct (dataset_of_year y).
Qed.

Lemma datasets_iff (years : list Z) (y : Z) (records : list record) :
  In (y, records) (datasets years)
  <-> In y years /\ dataset_of_year y = Some records.
Proof.
  unfold datasets. rewrite in_flat_map. split.
  - intros [y' [Hy H]]. destruct (dataset_of_year y') as [rs|] eqn:Hd;
      [|contradiction].
    destruct H as [[= <- <-] | []]. auto.
  - intros [Hy Hd]. exists y. rewrite Hd. split; [exact Hy | now left].
Qed.

Lemma datasets_years_NoDup (years : list Z) :
  NoDup years -> NoDup (map fst (datasets years)).
Proof.
  induction years as [|y ys IH]; simpl; intros Hnd; [constructor|].
  inversion Hnd as [|? ? Hnotin Hnd']; subst.
  change (flat_map _ ys) with (datasets ys).
  rewrite map_app. destruct (dataset_of_year y) as [rs|]; simpl; [|auto].
  constructor; [|auto].
  intros Hin. apply in_map_iff in Hin as [[y' rs'] [Hy' Hin]].
  simpl in Hy'. subst y'. apply datasets_iff in Hin as [Hin _]. auto.
Qed.

(** C10.  The OCR processing of a document logs the five steps in the
    report's order, whatever the document and the year, and what it emits is
    the outcome of the last of them: the records of the candidates that
    passed score validation, itself applied to the cleaned candidates. *)
Theorem ocr_pipeline_five_steps (year : Z) (doc : pdf) (log : list event) :
  snd (ocr_pipeline year doc log)
  = log ++ [Step year PdfToImage; Step year TextExtraction;
            Step year PatternRecognition; Step year DataCleaning;
            Step year ScoreValidation]
  /\ fst (ocr_pipeline year doc log)
     = map (emit year)
           (validate_scores
              (remove_artifacts
                 (parse_text year (map ocr_text (pdf_to_images doc)))))
  /\ Forall (fun r => valid_score (CEI_Score r) = true)
            (fst (ocr_pipeline year doc log)).
Proof.
  rewrite ocr_pipeline_run. simpl. repeat split.
  eapply Forall_impl; [|apply emitted_valid]. intros r [_ H]. exact H.
Qed.

(** C7.  Every record of every per-year dataset of a run carries a company
    name, a score and the year of its dataset, and its score lies between 0
    and 100 inclusive. *)
Theorem datasets_records_valid (years : list Z) :
  Forall (fun d : Z * list record =>
            Forall (fun r => Year r = fst d
                             /\ (0 <= CEI_Score r)%Q
                             /\ (CEI_Score r <= 100)%Q)
                   (snd d))
         (fst (run years)).
Proof.
  unfold run. rewrite process_years_run. simpl.
  apply Forall_forall. intros [y rs] Hd. simpl.
  apply datasets_iff in Hd as [_ Hd].
  unfold dataset_of_year in Hd.
  destruct (pdf_of_year y) as [doc|]; [|discriminate].
  pose proof (extracted_records_valid y doc) as Hv.
  destruct (extracted_records y doc) as [|r rs'] eqn:He; [discriminate|].
  injection Hd as <-.
  eapply Forall_impl; [|exact Hv].
  intros r' [Hy Hs]. apply valid_score_iff in Hs. tauto.
Qed.

(** C8.  A run goes through every year: a year without a PDF, or whose PDF
    yields no record by table detection and by OCR, is logged as skipped and
    gets no dataset; every other year of the run gets its dataset, once, the
    failures of other years notwithstanding. *)
Theorem run_is_best_effort (years : list Z) :
  fst (run years) = datasets years
  /\ (forall y records,
         In (y, records) (fst (run years))
         <-> In y years /\ dataset_of_year y = Some records)
  /\ (forall y,
         In y years -> dataset_of_year y = None ->
         (forall records, ~ In (y, records) (fst (run years)))
         /\ exists why, In (Skipped y why) (snd (run years)))
  /\ (forall y,
         In y years -> pdf_of_year y = None ->
         dataset_of_year y = None
         /\ In (Skipped y NoPdfAvailable) (snd (run years)))
  /\ (NoDup years -> NoDup (map fst (fst (run years)))).
Proof.
  unfold run. rewrite process_years_run. simpl.
  assert (Hlog : forall y, In y years -> dataset_of_year y = None ->
            exists why, In (Skipped y why) (flat_map year_events years)).
  { intros y Hy Hd. unfold dataset_of_year in Hd.
    destruct (pdf_of_year y) as [doc|] eqn:Hp.
    - exists ExtractionFailed. apply in_flat_map. exists y.
      split; [exact Hy|]. unfold year_events. rewrite Hp.
      apply in_or_app. right.
      destruct (extracted_records y doc); [now left | discriminate].
    - exists NoPdfAvailable. apply in_flat_map. exists y.
      split; [exact Hy|]. unfold year_events. rewrite Hp.
      now left. }
  split; [reflexivity|].
  split; [intros y records; apply datasets_iff|].
  split; [|split].
  - intros y Hy Hd. split; [|now apply Hlog].
    intros records H. apply datasets_iff in H as [_ H]. congruence.
  - intros y Hy Hp. split.
    + unfold dataset_of_year. now rewrite Hp.
    + apply in_flat_map. exists y. split; [exact Hy|].
      unfold year_events. rewrite Hp. now left.
  - apply datasets_years_NoDup.
Qed.

End Facts.

(** The run of the report's tables: 18 datasets, for the years of the
    report's file listing, and the three years of "Missing Years" skipped. *)
Example report_run :
  map fst (fst Sample.run)
  = [2002; 2003; 2004; 2005; 2006; 2008; 2009; 2010; 2011; 2012; 2013; 2014;
     2015; 2016; 2017; 2018; 2019; 2020]
  /\ filter (fun e => match e with Skipped _ _ => true | _ => false end)
            (snd Sample.run)
     = [Skipped 2007 NoPdfAvailable; Skipped 2021 ExtractionFailed;
        Skipped 2022 ExtractionFailed]
  /\ nth 6 (fst Sample.run) (0, [])
     = (2009, [{| Company := "HSBC USA"; CEI_Score := 100; Year := 2009 |}]).
Proof. repeat split. Qed.

End ExtractionFacts.

(** * Further properties of the notebook *)

(** ** [get_cusip6] and whitespace *)

Module StripFacts.
Import Py.

Lemma lstrip_app_space (l t : string) :
  all_space l = true -> lstrip (l ++ t) = lstrip t.
Proof.
  induction l as [|c l IH]; simpl; [reflexivity|].
  intros H. apply andb_true_iff in H as [Hc Hl]. rewrite Hc. auto.
Qed.

Lemma lstrip_all_space (s : string) : all_space s = true -> lstrip s = "".
Proof.
  induction s as [|c s IH]; simpl; [reflexivity|].
  intros H. apply andb_true_iff in H as [Hc Hs]. rewrite Hc. auto.
Qed.

Lemma lstrip_empty (s : string) : lstrip s = "" -> all_space s = true.
Proof.
  induction s as [|c s IH]; simpl; [reflexivity|].
  destruct (isspace c); [exact IH | discriminate].
Qed.

Lemma lstrip_app_kept (s r : string) :
  lstrip s <> "" -> lstrip (s ++ r) = lstrip s ++ r.
Proof.
  induction s as [|c s IH]; simpl; [congruence|].
  destruct (isspace c); [exact IH | reflexivity].
Qed.

Lemma lstrip_id (s : string) : starts_with_space s = false -> lstrip s = s.
Proof. destruct s as [|c s]; simpl; [reflexivity | now intros ->]. Qed.

Lemma all_space_app (a b : string) :
  all_space a = true -> all_space b = true -> all_space (a ++ b) = true.
Proof.
  induction a as [|c a IH]; simpl; [auto|].
  intros H Hb. apply andb_true_iff in H as [Hc Ha]. rewrite Hc. auto.
Qed.

Lemma rstrip_all_space (s : string) : all_space s = true -> rstrip s = "".
Proof.
  induction s as [|c s IH]; simpl; [reflexivity|].
  intros H. apply andb_true_iff in H as [Hc Hs]. now rewrite (IH Hs), Hc.
Qed.

Lemma rstrip_app_space (t r : string) :
  all_space r = true -> rstrip (t ++ r) = rstrip t.
Proof.
  intros Hr. induction t as [|c t IH]; simpl.
  - now apply rstrip_all_space.
  - now rewrite IH.
Qed.

Lemma rstrip_id (s : string) : ends_with_space s = false -> rstrip s = s.
Proof.
  induction s as [|c s IH]; [reflexivity|].
  destruct s as [|c' s].
  - simpl. now intros ->.
  - intros H. change (ends_with_space (String c' s) = false) in H.
    change (rstrip (String c (String c' s)))
      with (match rstrip (String c' s) with
            | EmptyString =>
                if isspace c then EmptyString else String c EmptyString
            | r => String c r
            end).
    now rewrite (IH H).
Qed.

Lemma rstrip_shorter (s : string) :
  ends_with_space s = true ->
  (String.length (rstrip s) < String.length s)%nat.
Proof.
  induction s as [|c s IH]; [discriminate|].
  destruct s as [|c' s].
  - simpl. intros ->. simpl. lia.
  - intros H. change (ends_with_space (String c' s) = true) in H.
    specialize (IH H).
    change (rstrip (String c (String c' s)))
      with (match rstrip (String c' s) with
            | EmptyString =>
                if isspace c then EmptyString else String c EmptyString
            | r => String c r
            end).
    destruct (rstrip (String c' s)) as [|x r].
    + destruct (isspace c); simpl; lia.
    + simpl in *. lia.
Qed.

(** Whitespace around a string does not change what [strip] returns. *)
Lemma strip_padding (l s r : string) :
  all_space l = true -> all_space r = true -> strip (l ++ s ++ r) = strip s.
Proof.
  intros Hl Hr. unfold strip. rewrite (lstrip_app_space l _ Hl).
  destruct (lstrip s) as [|c t] eqn:Hs.
  - rewrite lstrip_all_space; [reflexivity|].
    apply all_space_app; [now apply lstrip_empty | exact Hr].
  - rewrite lstrip_app_kept by (rewrite Hs; discriminate).
    rewrite Hs. now apply rstrip_app_space.
Qed.

Lemma slice_to_all (s : string) : slice_to (String.length s) s = s.
Proof.
  unfold slice_to. induction s as [|c s IH]; simpl; [reflexivity|].
  now rewrite IH.
Qed.

Lemma slice_to_start (n : nat) (s : string) :
  starts_with_space (slice_to (S n) s) = starts_with_space s.
Proof. destruct s; reflexivity. Qed.

End StripFacts.

(** X1.  Whitespace around a CUSIP string does not matter: [get_cusip6]
    returns the same for a string and for the string with whitespace added
    at either end. *)
Theorem get_cusip6_padding (l s r : string) :
  Py.all_space l = true -> Py.all_space r = true ->
  get_cusip6 (Py.Str (l ++ s ++ r)) = get_cusip6 (Py.Str s).
Proof.
  intros Hl Hr. unfold get_cusip6. simpl.
  now rewrite (StripFacts.strip_padding l s r Hl Hr).
Qed.

(** The padding of a tab before and a space and a newline after. *)
Lemma get_cusip6_padding_sample :
  (Py.all_space (String (ascii_of_nat 9) "") = true
   /\ Py.all_space (String " " (String (ascii_of_nat 10) "")) = true)
  /\ get_cusip6
       (Py.Str (String (ascii_of_nat 9) ""
                ++ "037833100" ++ String " " (String (ascii_of_nat 10) "")))
     = get_cusip6 (Py.Str "037833100").
Proof.
  split; [split; reflexivity|].
  apply (get_cusip6_padding (String (ascii_of_nat 9) "") "037833100"
           (String " " (String (ascii_of_nat 10) ""))); reflexivity.
Defined.

(** X2.  What [get_cusip6] returns has 6 characters and does not start with
    whitespace, but it may end with whitespace; given back to [get_cusip6]
    it is returned unchanged when it does not, and is refused ([None]) when
    it does. *)
Theorem get_cusip6_again (cusip : Py.value) (c6 : string) :
  get_cusip6 cusip = Some c6 ->
  String.length c6 = 6%nat
  /\ Py.starts_with_space c6 = false
  /\ (Py.ends_with_space c6 = false -> get_cusip6 (Py.Str c6) = Some c6)
  /\ (Py.ends_with_space c6 = true -> get_cusip6 (Py.Str c6) = None).
Proof.
  intros H. pose proof (get_cusip6_length _ _ H) as Hlen.
  assert (Hstart : Py.starts_with_space c6 = false).
  { unfold get_cusip6 in H. destruct (Py.isna cusip); [discriminate|].
    destruct (6 <=? String.length (Py.strip (Py.str cusip)))%nat;
      [|discriminate].
    injection H as <-. rewrite StripFacts.slice_to_start.
    now destruct (PyFacts.strip_spec (Py.str cusip))
      as [l [r [_ [_ [_ [Hs _]]]]]]. }
  split; [exact Hlen|]. split; [exact Hstart|].
  unfold get_cusip6. cbn [Py.isna Py.str]. unfold Py.strip.
  rewrite (StripFacts.lstrip_id _ Hstart). split; intros Hend.
  - rewrite (StripFacts.rstrip_id _ Hend), Hlen. cbn [Nat.leb].
    rewrite <- Hlen. now rewrite StripFacts.slice_to_all.
  - pose proof (StripFacts.rstrip_shorter _ Hend) as Hs.
    rewrite Hlen in Hs.
    destruct (Nat.leb_spec 6 (String.length (Py.rstrip c6)));
      [lia | reflexivity].
Qed.

(** A CUSIP whose sixth character is a space. *)
Lemma get_cusip6_again_sample :
  get_cusip6 (Py.Str "12345 678") = Some "12345 "
  /\ String.length "12345 " = 6%nat
  /\ Py.starts_with_space "12345 " = false
  /\ (Py.ends_with_space "12345 " = false ->
      get_cusip6 (Py.Str "12345 ") = Some "12345 ")
  /\ (Py.ends_with_space "12345 " = true ->
      get_cusip6 (Py.Str "12345 ") = None).
Proof.
  split; [reflexivity|].
  apply (get_cusip6_again (Py.Str "12345 678") "12345 "). reflexivity.
Defined.

(** ** The labels of [create_score_bin] *)

Module LabelFacts.
Import Py.

Lemma no_dash_uint (u : Decimal.uint) :
  no_dash (NilEmpty.string_of_uint u) = true.
Proof. induction u; simpl; auto. Qed.

(** The digits before the first [-] of a string are determined by it. *)
Lemma split_at_dash (d d' r r' : string) :
  no_dash d = true -> no_dash d' = true ->
  d ++ String "-" r = d' ++ String "-" r' -> d = d'.
Proof.
  revert d'. induction d as [|c d IH]; intros [|c' d'] Hd Hd' H; simpl in *.
  - reflexivity.
  - injection H as <- _. simpl in Hd'. discriminate.
  - injection H as -> _. simpl in Hd. discriminate.
  - injection H as <- H.
    apply andb_true_iff in Hd as [_ Hd]. apply andb_true_iff in Hd' as [_ Hd'].
    f_equal. now apply IH.
Qed.

(** [str] of an integer: digits, after a [-] for a negative one. *)
Lemma str_of_int_shape (z : Z) :
  exists d, no_dash d = true /\ d <> ""
            /\ (str_of_int z = d \/ str_of_int z = String "-" d).
Proof.
  unfold str_of_int.
  destruct (Z.to_int z) as [u|u]; simpl;
    (destruct u as [|u|u|u|u|u|u|u|u|u|u];
     [exists "0"; simpl; repeat split; [discriminate | auto] | ..]);
    match goal with
    | |- context [NilZero.string_of_uint ?v] =>
        exists (NilEmpty.string_of_uint v);
        split; [apply no_dash_uint | split; [simpl; discriminate | simpl; auto]]
    end.
Qed.

(** Two labels that are equal start from the same bin. *)
Lemma label_start_inj (b b' : Z) (r r' : string) :
  str_of_int b ++ String "-" r = str_of_int b' ++ String "-" r' -> b = b'.
Proof.
  intros H. apply PyFacts.str_of_int_inj.
  destruct (str_of_int_shape b) as [d [Hd [Hne [E | E]]]],
    (str_of_int_shape b') as [d' [Hd' [Hne' [E' | E']]]];
    rewrite E, E' in *.
  - now apply (split_at_dash d d' r r').
  - destruct d as [|c d]; [congruence|]. simpl in H. injection H as -> _.
    simpl in Hd. discriminate.
  - destruct d' as [|c d']; [congruence|]. simpl in H. injection H as <- _.
    simpl in Hd'. discriminate.
  - simpl in H. injection H as H. f_equal.
    now apply (split_at_dash d d' r r').
Qed.

End LabelFacts.

(** X3.  Two scores get the same label exactly when they lie in the same
    block of ten, that is when their floor divisions by 10 agree: grouping
    by [score_bin] is grouping by [score // 10]. *)
Theorem create_score_bin_same_label (s1 s2 : Q) :
  create_score_bin (Some s1) = create_score_bin (Some s2)
  <-> Qfloor (s1 / 10) = Qfloor (s2 / 10).
Proof.
  unfold create_score_bin.
  generalize (Qfloor (s1 / 10)) (Qfloor (s2 / 10)). intros f1 f2. split.
  - intros H. injection H as H. apply LabelFacts.label_start_inj in H. lia.
  - now intros ->.
Qed.


Example create_score_bin_ends_sample :
  create_score_bin (Some (795 # 10)%Q) = Some "70-79"
  /\ create_score_bin (Some 110%Q) = Some "110-100"
  /\ create_score_bin (Some (-5)%Q) = Some "-10--1".
Proof. repeat split. Qed.

(** ** Groups account for every row once *)

Section GroupWeights.
Context {R K : Type}.
Variable K_eq_dec : forall a b : K, {a = b} + {a <> b}.
Variable cmp : K -> K -> comparison.
Variable key : R -> option K.
(** What a row adds to the total of its group. *)
Variable w : R -> nat.

Lemma list_sum_zero (ks : list K) : list_sum (map (fun _ => O) ks) = O.
Proof. induction ks; simpl; auto. Qed.

Lemma list_sum_plus (f g : K -> nat) (ks : list K) :
  list_sum (map (fun k => f k + g k)%nat ks)
  = (list_sum (map f ks) + list_sum (map g ks))%nat.
Proof. induction ks as [|k ks IH]; simpl; [reflexivity | rewrite IH; lia]. Qed.

Lemma list_sum_one_key (a : nat) (k0 : K) (ks : list K) :
  NoDup ks -> In k0 ks ->
  list_sum (map (fun k => if K_eq_dec k k0 then a else O) ks) = a.
Proof.
  induction ks as [|k ks IH]; simpl; intros Hnd Hin; [contradiction|].
  inversion Hnd as [|? ? Hnotin Hnd']; subst.
  destruct (K_eq_dec k k0) as [-> | Hne].
  - rewrite (map_ext_in _ (fun _ => O)); [rewrite list_sum_zero; lia|].
    intros k Hk. destruct (K_eq_dec k k0); [congruence | reflexivity].
  - destruct Hin as [-> | Hin]; [congruence|]. now apply IH.
Qed.

Lemma group_weights (ks : list K) (rows : list R) :
  NoDup ks ->
  (forall r k, In r rows -> key r = Some k -> In k ks) ->
  list_sum (map (fun k => list_sum (map w (filter (has_key K_eq_dec key k) rows)))
                ks)
  = list_sum (map w (filter (fun r => notna (key r)) rows)).
Proof.
  intros Hnd. induction rows as [|r rs IH]; intros Hall.
  - simpl. apply list_sum_zero.
  - assert (IH' := IH (fun r' k Hr' => Hall r' k (or_intror Hr'))).
    rewrite (map_ext _
               (fun k => (if has_key K_eq_dec key k r then w r else O)
                         + list_sum (map w (filter (has_key K_eq_dec key k) rs)))%nat)
      by (intros k; simpl; now destruct (has_key K_eq_dec key k r)).
    rewrite list_sum_plus, IH'. simpl filter.
    unfold has_key. destruct (key r) as [k0|] eqn:Hk; simpl.
    + f_equal.
      etransitivity;
        [|exact (list_sum_one_key (w r) k0 ks Hnd
                   (Hall r k0 (or_introl eq_refl) Hk))].
      f_equal. apply map_ext. intros k.
      destruct (K_eq_dec k k0); reflexivity.
    + now rewrite list_sum_zero.
Qed.

(** The totals of the groups of [groupby] add up to the total of the rows
    that have a key. *)
Lemma groupby_weights (rows : list R) :
  list_sum (map (fun kg => list_sum (map w (snd kg)))
                (groupby K_eq_dec cmp key rows))
  = list_sum (map w (filter (fun r => notna (key r)) rows)).
Proof.
  unfold groupby. rewrite map_map. simpl.
  apply group_weights.
  - apply sort_by_NoDup, NoDup_nodup.
  - intros r k Hr Hk. apply sort_by_In, nodup_In, (keys_of_iff cmp key).
    exists r. auto.
Qed.

End GroupWeights.

Lemma list_sum_ones {A : Type} (l : list A) :
  list_sum (map (fun _ => 1%nat) l) = List.length l.
Proof. induction l; simpl; auto. Qed.

Lemma RET_values_count (rows : list Merged.row) :
  List.length (RET_values rows)
  = list_sum (map (fun m => if notna (Merged.RET m) then 1%nat else O) rows).
Proof.
  unfold RET_values, present. induction rows as [|m rows IH]; simpl; [reflexivity|].
  rewrite length_app, IH. now destruct (Merged.RET m).
Qed.

(** X5.  The counts of [yearly_analysis] and of [overall_analysis] add up to
    the number of returns of the rows they group: each row of [merged_df]
    with its grouping columns present is counted in one group and one only,
    and a row with a missing year or a missing [days_from_release] is in no
    group. *)
Theorem analysis_counts_add_up
  (std : list Q -> option Q) (np_sqrt : Q -> option Q)
  (merged : list Merged.row) :
  list_sum (map Yearly.count (yearly_analysis std merged))
  = List.length (RET_values (filter (fun m => notna (yearly_key m)) merged))
  /\ list_sum (map Overall.count (overall_analysis std np_sqrt merged))
     = List.length (RET_values (filter (fun m => notna (overall_key m)) merged)).
Proof.
  split.
  - unfold yearly_analysis. rewrite map_map, RET_values_count.
    rewrite <- (groupby_weights Z_str_Z_eq_dec cmp_Z_str_Z).
    f_equal. apply map_ext. intros [[[y b] d] g]. simpl.
    apply RET_values_count.
  - unfold overall_analysis. rewrite map_map, RET_values_count.
    rewrite <- (groupby_weights str_Z_eq_dec cmp_str_Z).
    f_equal. apply map_ext. intros [[b d] g]. simpl.
    apply RET_values_count.
Qed.

(** X6.  The firm counts of [summary_stats] add up to the number of rows of
    [firm_event_returns]: every firm-year row is counted in the bin of its
    label and in no other. *)
Theorem summary_counts_add_up
  (std : list Q -> option Q) (fer : list FirmEvent.row) :
  list_sum (map Summary.N_firms (summary_stats std fer)) = List.length fer.
Proof.
  unfold summary_stats. rewrite map_map.
  transitivity
    (list_sum (map (fun kg : string * list FirmEvent.row =>
                      list_sum (map (fun _ => 1%nat) (snd kg)))
                   (groupby string_dec String.compare
                            (fun r => Some (FirmEvent.score_bin r)) fer))).
  { f_equal. apply map_ext. intros [b g]. simpl.
    now rewrite length_map, list_sum_ones. }
  rewrite groupby_weights, list_sum_ones. f_equal.
  apply forallb_filter_id. apply forallb_forall. reflexivity.
Qed.

(** X7.  The score distribution of cell 4 accounts for every record of the
    prepared [cei_df]: its counts add up to the number of rows, no row
    having a missing score bin. *)
Theorem score_dist_adds_up (cei_csv : list CeiCsv.row) :
  list_sum (map snd (score_dist (prepare_cei cei_csv)))
  = List.length (prepare_cei cei_csv).
Proof.
  unfold score_dist. rewrite map_map. simpl.
  rewrite (map_ext _ (fun kg : string * list Cei.row =>
                        list_sum (map (fun _ => 1%nat) (snd kg))))
    by (intros [b g]; simpl; now rewrite list_sum_ones).
  rewrite (groupby_weights string_dec String.compare Cei.score_bin
             (fun _ => 1%nat)).
  rewrite list_sum_ones. f_equal.
  apply forallb_filter_id. apply forallb_forall. intros c Hc.
  destruct (prepare_cei_row _ _ Hc) as [_ [_ [_ Hb]]].
  now destruct (Cei.score_bin c).
Qed.

Example score_dist_sample :
  score_dist (prepare_cei Sample.cei_csv) = [("0-9", 2%nat); ("10-19", 1%nat)].
Proof. reflexivity. Qed.

(** ** Event returns account for every return of the window once *)




Section GroupReturns.
Context {K : Type}.
Variable K_eq_dec : forall a b : K, {a = b} + {a <> b}.
Variable cmp : K -> K -> comparison.
Variable key : Merged.row -> option K.







End GroupReturns.


Example event_returns_add_up_sample :
  Qred (Qsum (map FirmEvent.event_return (firm_event_returns Sample.merged)))
  = (9 # 100)%Q
  /\ List.length (event_window Sample.merged) = 6%nat.
Proof. split; vm_compute; reflexivity. Qed.

(** ** The merge, once more *)

(** X9.  In every row of [merged_df] the two year columns agree: the [year]
    taken from the CEI frame is the calendar year of the stock row's
    [cei_release_date], held in [cei_year]. *)
Theorem merged_years_agree
  (stock_df : list Stock.row) (cei_csv : list CeiCsv.row) :
  Forall (fun m => Merged.year m = Merged.cei_year m
                   /\ Merged.cei_year m
                      = option_map year_of (Merged.cei_release_date m))
         (merged_df stock_df cei_csv).
Proof.
  apply Forall_forall. intros m Hm.
  apply merged_df_row in Hm as [s [c [_ [_ [_ [Hy [_ ->]]]]]]].
  simpl. split; [now rewrite Hy | reflexivity].
Qed.

Lemma NoDup_map_inj {A B : Type} (f : A -> B) (l : list A) (a b : A) :
  NoDup (map f l) -> In a l -> In b l -> f a = f b -> a = b.
Proof.
  induction l as [|x l IH]; simpl; intros Hnd Ha Hb Hf; [contradiction|].
  inversion Hnd as [|? ? Hnotin Hnd']; subst.
  destruct Ha as [-> | Ha], Hb as [-> | Hb]; auto.
  - exfalso. apply Hnotin. rewrite Hf. now apply in_map.
  - exfalso. apply Hnotin. rewrite <- Hf. now apply in_map.
Qed.

Lemma filter_at_most_one {A B : Type} (f : A -> B) (p : A -> bool)
  (l : list A) :
  NoDup (map f l) ->
  (forall a b, p a = true -> p b = true -> f a = f b) ->
  (List.length (filter p l) <= 1)%nat.
Proof.
  intros Hnd Hp. induction l as [|x l IH]; simpl; [lia|].
  inversion Hnd as [|? ? Hnotin Hnd']; subst.
  destruct (p x) eqn:Hx; [|now apply IH].
  destruct (filter p l) as [|y t] eqn:Hf; simpl; [lia|].
  exfalso. apply Hnotin.
  assert (Hy : In y (filter p l)) by (rewrite Hf; now left).
  apply filter_In in Hy as [Hy Hpy].
  rewrite (Hp x y Hx Hpy). now apply in_map.
Qed.

Lemma keys_match_same_key (s : Stock.row) (c c' : Cei.row) :
  keys_match s c = true -> keys_match s c' = true -> cei_key c = cei_key c'.
Proof.
  intros H H'. apply keys_match_iff in H as [H1 H2].
  apply keys_match_iff in H' as [H1' H2']. unfold cei_key. congruence.
Qed.

(** X10.  Where no two rows of the CEI frame share their [cusip6] and
    [year], the merge joins a stock row with at most one CEI row, so it
    repeats no stock row: the merged frame has at most as many rows as the
    stock frame. *)
Theorem merge_unique_keys
  (stock_df : list Stock.row) (cei_df : list Cei.row) :
  NoDup (map cei_key cei_df) ->
  (forall s, (List.length (filter (keys_match s) cei_df) <= 1)%nat)
  /\ (List.length (merge_inner stock_df cei_df) <= List.length stock_df)%nat.
Proof.
  intros Hnd.
  assert (H1 : forall s,
             (List.length (filter (keys_match s) cei_df) <= 1)%nat).
  { intros s. apply (filter_at_most_one cei_key); [exact Hnd|].
    intros a b. apply keys_match_same_key. }
  split; [exact H1|].
  unfold merge_inner. rewrite length_map, matched_pairs_length.
  induction stock_df as [|s l IH]; simpl; [lia|].
  specialize (H1 s). lia.
Qed.

(** Two listings of different years: the keys are unique. *)
Lemma merge_unique_keys_sample :
  let cei_df :=
    prepare_cei [Sample.cei "123456789" 2010 5; Sample.cei "123456789" 2011 95] in
  NoDup (map cei_key cei_df)
  /\ (forall s, (List.length (filter (keys_match s) cei_df) <= 1)%nat)
  /\ (List.length (merge_inner Sample.stock_df cei_df)
      <= List.length Sample.stock_df)%nat.
Proof.
  intros cei_df.
  assert (Hnd : NoDup (map cei_key cei_df)).
  { repeat constructor; simpl; intuition discriminate. }
  split; [exact Hnd|].
  exact (merge_unique_keys Sample.stock_df cei_df Hnd).
Defined.

(** X11.  Where no two rows of the prepared CEI frame share their [cusip6]
    and [year], every row of [firm_event_returns] is the only one of its
    firm and year, and its event return is the sum of [RET] over all the rows
    of that firm and year in the event window. *)
Theorem event_return_firm_year_sum
  (stock_df : list Stock.row) (cei_csv : list CeiCsv.row) :
  NoDup (map cei_key (prepare_cei cei_csv)) ->
  let merged := merged_df stock_df cei_csv in
  forall r,
    In r (firm_event_returns merged) ->
    FirmEvent.event_return r
    = firm_year_window_sum merged (FirmEvent.cusip6 r) (FirmEvent.year r)
    /\ forall r',
         In r' (firm_event_returns merged) ->
         FirmEvent.cusip6 r' = FirmEvent.cusip6 r ->
         FirmEvent.year r' = FirmEvent.year r -> r' = r.
Proof.
  intros Hnd merged.
  assert (Hbin : forall m m' c y,
             In m merged -> In m' merged ->
             Merged.cusip6 m = Some c -> Merged.year m = Some y ->
             Merged.cusip6 m' = Some c -> Merged.year m' = Some y ->
             Merged.score_bin m = Merged.score_bin m').
  { intros m m' c y Hm Hm' Hc Hy Hc' Hy'.
    apply merged_df_row in Hm as [s [e [_ [He [Hk [_ [_ ->]]]]]]].
    apply merged_df_row in Hm' as [s' [e' [_ [He' [Hk' [_ [_ ->]]]]]]].
    simpl in *.
    assert (Heq : e = e').
    { apply (NoDup_map_inj cei_key _ e e' Hnd He He').
      unfold cei_key. congruence. }
    now rewrite Heq. }
  assert (Hkey : forall r, In r (firm_event_returns merged) ->
             exists m, In m merged
                       /\ Merged.cusip6 m = Some (FirmEvent.cusip6 r)
                       /\ Merged.year m = Some (FirmEvent.year r)
                       /\ Merged.score_bin m = Some (FirmEvent.score_bin r)).
  { intros r Hr. apply firm_event_returns_iff in Hr as [[m [Hm Hk]] _].
    apply filter_In in Hm as [Hm _].
    apply firm_key_iff in Hk. exists m. tauto. }
  intros r Hr. destruct (Hkey r Hr) as [m [Hm [Hc [Hy Hb]]]]. split.
  - apply event_return_single_bin; [exact Hr|].
    intros m' Hm'. apply filter_In in Hm' as [Hm' Hf].
    apply andb_true_iff in Hf as [Hf Hy'].
    apply andb_true_iff in Hf as [_ Hc'].
    apply key_eqb_string in Hc'. apply key_eqb_Z in Hy'.
    rewrite <- Hb. now apply (Hbin m' m (FirmEvent.cusip6 r) (FirmEvent.year r)).
  - intros r' Hr' Ec Ey.
    destruct (Hkey r' Hr') as [m' [Hm' [Hc' [Hy' Hb']]]].
    rewrite Ec in Hc'. rewrite Ey in Hy'.
    assert (Eb : FirmEvent.score_bin r' = FirmEvent.score_bin r).
    { pose proof (Hbin m' m _ _ Hm' Hm Hc' Hy' Hc Hy) as E.
      rewrite Hb, Hb' in E. congruence. }
    assert (Ek : firm_event_key r' = firm_event_key r)
      by (unfold firm_event_key; congruence).
    apply firm_event_returns_iff in Hr as [_ Hs].
    apply firm_event_returns_iff in Hr' as [_ Hs'].
    rewrite Ek in Hs'. rewrite <- Hs in Hs'.
    destruct r, r'. simpl in *. congruence.
Qed.

(** One listing a year: the event return of 2010 is the firm-year sum. *)
Lemma event_return_firm_year_sum_sample :
  let cei_csv := [Sample.cei "123456789" 2010 5; Sample.cei "123456789" 2011 95] in
  let merged := merged_df Sample.stock_df cei_csv in
  let r := {| FirmEvent.cusip6 := "123456"; FirmEvent.year := 2010;
              FirmEvent.score_bin := "0-9";
              FirmEvent.event_return := Qsum [1 # 100; 2 # 100] |} in
  (NoDup (map cei_key (prepare_cei cei_csv))
   /\ In r (firm_event_returns merged))
  /\ FirmEvent.event_return r
     = firm_year_window_sum merged (FirmEvent.cusip6 r) (FirmEvent.year r)
  /\ forall r',
       In r' (firm_event_returns merged) ->
       FirmEvent.cusip6 r' = FirmEvent.cusip6 r ->
       FirmEvent.year r' = FirmEvent.year r -> r' = r.
Proof.
  intros cei_csv merged r.
  assert (Hnd : NoDup (map cei_key (prepare_cei cei_csv))).
  { repeat constructor; simpl; intuition discriminate. }
  assert (Hr : In r (firm_event_returns merged)) by (left; reflexivity).
  split; [split; [exact Hnd | exact Hr]|].
  exact (event_return_firm_year_sum Sample.stock_df cei_csv Hnd r Hr).
Defined.

(** ** The test and the plots *)

Lemma filter_disjoint_length {A : Type} (p q : A -> bool) (l : list A) :
  (forall x, p x = true -> q x = true -> False) ->
  (List.length (filter p l) + List.length (filter q l) <= List.length l)%nat.
Proof.
  intros H. induction l as [|x l IH]; simpl; [lia|].
  destruct (p x) eqn:Hp, (q x) eqn:Hq; simpl; try lia.
  exfalso. exact (H x Hp Hq).
Qed.

(** X12.  The two groups of the test do not overlap: no row of
    [firm_event_returns] is in both, so together they hold at most as many
    returns as there are rows. *)
Theorem test_groups_disjoint (fer : list FirmEvent.row) :
  (forall r,
      ~ (Py.isin (FirmEvent.score_bin r) ["90-100"] = true
         /\ Py.isin (FirmEvent.score_bin r) ["0-9"; "10-19"] = true))
  /\ (List.length (high_scores fer) + List.length (low_scores fer)
      <= List.length fer)%nat.
Proof.
  assert (H : forall r : FirmEvent.row,
             Py.isin (FirmEvent.score_bin r) ["90-100"] = true ->
             Py.isin (FirmEvent.score_bin r) ["0-9"; "10-19"] = true -> False).
  { intros r. unfold Py.isin. simpl. rewrite !orb_false_r.
    intros Hh Hl. apply String.eqb_eq in Hh. rewrite Hh in Hl.
    discriminate Hl. }
  split; [intros r [Hh Hl]; exact (H r Hh Hl)|].
  unfold high_scores, low_scores. rewrite !length_map.
  now apply filter_disjoint_length.
Qed.

(** X13.  On the frames the notebook builds the test is never run: no row of
    [firm_event_returns] has the score bin "90-100", the high group is
    empty, and the outcome of cell 13 is the report of insufficient data,
    whatever the CEI and stock files hold. *)
Theorem test_is_never_run
  (ttest_ind : list Q -> list Q -> option Q * option Q)
  (stock_df : list Stock.row) (cei_csv : list CeiCsv.row) :
  let fer := firm_event_returns (merged_df stock_df cei_csv) in
  Forall (fun r => FirmEvent.score_bin r <> "90-100") fer
  /\ high_scores fer = []
  /\ significance_test ttest_ind fer
     = Insufficient "Insufficient data for statistical test".
Proof.
  intros fer. split; [|split].
  - apply Forall_forall. intros r Hr Hb.
    apply firm_event_returns_iff in Hr as [[m [Hm Hk]] _].
    apply filter_In in Hm as [Hm _].
    apply merged_df_row_ok in Hm as [_ Hbin].
    apply firm_key_iff in Hk as [_ [_ Hk]].
    rewrite Hk, Hb in Hbin. symmetry in Hbin.
    now apply create_score_bin_never_90_100 in Hbin.
  - apply high_scores_empty.
  - unfold significance_test, fer. now rewrite high_scores_empty.
Qed.

Lemma RET_values_nonempty (g : list Merged.row) :
  g <> [] -> Forall (fun m => row_ok m = true) g -> RET_values g <> [].
Proof.
  destruct g as [|m g]; [congruence|]. intros _ Hok.
  inversion Hok as [|? ? Hm _]; subst.
  apply row_ok_fields in Hm as [_ [_ [_ Hret]]].
  unfold RET_values, present. simpl.
  destruct (Merged.RET m); [discriminate | congruence].
Qed.

Lemma yearly_row_has_mean (std : list Q -> option Q)
  (stock_df : list Stock.row) (cei_csv : list CeiCsv.row) (r : Yearly.row) :
  In r (yearly_analysis std (merged_df stock_df cei_csv)) ->
  (1 <= Yearly.count r)%nat /\ Yearly.avg_return r <> None.
Proof.
  unfold yearly_analysis. rewrite in_map_iff.
  intros [[[[y b] d] g] [<- H]]. simpl.
  assert (Hne : RET_values g <> []).
  { destruct (groupby_rows _ _ _ _ _ _ H) as [Hg Hrows].
    apply RET_values_nonempty; [exact Hg|].
    apply Forall_forall. intros m Hm.
    apply (merged_df_row_ok stock_df cei_csv). now apply Hrows. }
  destruct (RET_values g) as [|q l]; [congruence|].
  simpl. split; [lia | discriminate].
Qed.

(** X14.  Every row of [yearly_analysis] and of [overall_analysis] built
    from [merged_df] averages at least one return: its count is at least 1
    and its average is not missing. *)
Theorem analysis_rows_have_mean
  (std : list Q -> option Q) (np_sqrt : Q -> option Q)
  (stock_df : list Stock.row) (cei_csv : list CeiCsv.row) :
  Forall (fun r => (1 <= Yearly.count r)%nat /\ Yearly.avg_return r <> None)
         (yearly_analysis std (merged_df stock_df cei_csv))
  /\ Forall (fun r => (1 <= Overall.count r)%nat
                      /\ Overall.avg_return r <> None)
            (overall_analysis std np_sqrt (merged_df stock_df cei_csv)).
Proof.
  split; apply Forall_forall; intros r Hr.
  - now apply (yearly_row_has_mean std stock_df cei_csv).
  - unfold overall_analysis in Hr. apply in_map_iff in Hr
      as [[[b d] g] [<- H]]. simpl.
    assert (Hne : RET_values g <> []).
    { destruct (groupby_rows _ _ _ _ _ _ H) as [Hg Hrows].
      apply RET_values_nonempty; [exact Hg|].
      apply Forall_forall. intros m Hm.
      apply (merged_df_row_ok stock_df cei_csv). now apply Hrows. }
    destruct (RET_values g) as [|q l]; [congruence|].
    simpl. split; [lia | discriminate].
Qed.

Lemma position_some (b : string) (labels : list string) :
  In b labels ->
  exists j, position b labels = Some j /\ (j < List.length labels)%nat
            /\ nth j labels "" = b.
Proof.
  induction labels as [|x xs IH]; simpl; [contradiction|].
  intros Hin. destruct (String.eqb_spec x b) as [-> | Hne].
  - exists O. repeat split. lia.
  - destruct Hin as [-> | Hin]; [congruence|].
    destruct (IH Hin) as [j [Hj [Hlt Hn]]].
    exists (S j). rewrite Hj. repeat split; [lia | exact Hn].
Qed.

Lemma nth_map_in {A : Type} (f : string -> A) (labels : list string)
  (j : nat) (a : A) :
  (j < List.length labels)%nat ->
  nth j (map f labels) a = f (nth j labels "").
Proof.
  revert j. induction labels as [|x xs IH]; intros [|j] H; simpl in *;
    try lia; [reflexivity | apply IH; lia].
Qed.

(** X15.  In the pivot of a year of [yearly_analysis] built from
    [merged_df], every column has a value that is not missing: the test
    [not pivot_data[score_bin].isna().all()] of cell 7 holds for every score
    bin of the pivot, and no column is left out of the plot. *)
Theorem pivot_columns_plotted
  (std : list Q -> option Q)
  (stock_df : list Stock.row) (cei_csv : list CeiCsv.row)
  (year : Z) (b : string) :
  let pivot_data :=
    pivot (year_data (yearly_analysis std (merged_df stock_df cei_csv)) year) in
  In b (columns pivot_data) -> column_plotted pivot_data b = true.
Proof.
  intros pivot_data Hb.
  set (rows := year_data (yearly_analysis std (merged_df stock_df cei_csv))
                         year) in *.
  assert (Hmean : forall r, In r rows -> Yearly.avg_return r <> None).
  { intros r Hr. apply filter_In in Hr as [Hr _].
    now apply (yearly_row_has_mean std stock_df cei_csv). }
  destruct (position_some b _ Hb) as [j [Hj [Hlt Hn]]].
  apply pivot_columns, in_map_iff in Hb as [r0 [Hb0 Hr0]].
  unfold column_plotted, pivot_column. rewrite Hj. simpl.
  apply negb_true_iff. apply not_true_is_false. intros Hall.
  rewrite forallb_forall in Hall.
  set (cell := fun d b' =>
         match find (fun r => (Yearly.days_from_release r =? d)
                              && String.eqb (Yearly.score_bin r) b') rows with
         | Some r => Yearly.avg_return r
         | None => None
         end).
  assert (Hin : In (cell (Yearly.days_from_release r0) b)
                   (map (fun row => nth j row None) (cells pivot_data))).
  { unfold pivot_data, pivot. simpl. rewrite map_map.
    apply in_map_iff. exists (Yearly.days_from_release r0). split.
    - rewrite (nth_map_in _ _ j None) by exact Hlt.
      fold rows. unfold pivot_data, pivot in Hn. simpl in Hn. fold rows in Hn.
      now rewrite Hn.
    - apply sort_by_In, nodup_In, in_map. exact Hr0. }
  specialize (Hall _ Hin). unfold cell in Hall.
  destruct (find _ rows) as [r|] eqn:Hf.
  - apply find_some in Hf as [Hr _].
    specialize (Hmean r Hr). now destruct (Yearly.avg_return r).
  - apply (find_none _ _ Hf) in Hr0.
    rewrite Z.eqb_refl, Hb0, String.eqb_refl in Hr0. discriminate.
Qed.

(** The pivot of 2010 of the sample: both columns are plotted. *)
Lemma pivot_columns_plotted_sample :
  let pivot_data :=
    pivot (year_data (yearly_analysis (fun _ => None) Sample.merged) 2010) in
  columns pivot_data = ["0-9"; "10-19"]
  /\ In "10-19" (columns pivot_data)
  /\ column_plotted pivot_data "10-19" = true.
Proof.
  intros pivot_data.
  assert (Hin : In "10-19" (columns pivot_data)) by (right; left; reflexivity).
  split; [reflexivity|]. split; [exact Hin|].
  exact (pivot_columns_plotted (fun _ => None) Sample.stock_df Sample.cei_csv
           2010 "10-19" Hin).
Defined.

(** ** The prepared frame and the window *)

Lemma filter_map_swap {A B : Type} (f : A -> B) (p : B -> bool) (l : list A) :
  filter p (map f l) = map f (filter (fun a => p (f a)) l).
Proof.
  induction l as [|a l IH]; simpl; [reflexivity|].
  destruct (p (f a)); simpl; now rewrite IH.
Qed.

(** X16.  Cells 3 and 4 drop exactly the records whose CUSIP is missing or
    has fewer than 6 characters once stripped, and those whose score is
    missing; the records kept stay in the order of the file, with their
    CUSIP, year, score and employer as read. *)
Theorem prepare_cei_keeps (cei_csv : list CeiCsv.row) :
  let kept := fun r =>
    negb (Py.isna (CeiCsv.cusip r))
    && (6 <=? String.length (Py.strip (Py.str (CeiCsv.cusip r))))%nat
    && notna (CeiCsv.cei_score r) in
  map (fun c => (Cei.cusip c, Cei.year c, Cei.cei_score c, Cei.employer c))
      (prepare_cei cei_csv)
  = map (fun r => (CeiCsv.cusip r, CeiCsv.year r, CeiCsv.cei_score r,
                   CeiCsv.employer r))
        (filter kept cei_csv)
  /\ (List.length (prepare_cei cei_csv) <= List.length cei_csv)%nat.
Proof.
  intros kept.
  assert (E : prepare_cei cei_csv
              = map (fun r =>
                       {| Cei.cusip := CeiCsv.cusip r;
                          Cei.year := CeiCsv.year r;
                          Cei.cei_score := CeiCsv.cei_score r;
                          Cei.employer := CeiCsv.employer r;
                          Cei.cusip6 := get_cusip6 (CeiCsv.cusip r);
                          Cei.score_bin :=
                            create_score_bin (CeiCsv.cei_score r) |})
                    (filter kept cei_csv)).
  { unfold prepare_cei, with_score_bin, dropna_cusip6_score, with_cusip6.
    rewrite filter_map_swap, map_map. simpl. f_equal.
    apply filter_ext. intros r. unfold kept, get_cusip6.
    destruct (Py.isna (CeiCsv.cusip r)); cbn [negb andb notna];
      [reflexivity|].
    now destruct (6 <=? String.length (Py.strip (Py.str (CeiCsv.cusip r))))%nat. }
  rewrite E, map_map, length_map. simpl. split; [reflexivity|].
  apply filter_length_le.
Qed.

Example prepare_cei_sample :
  map Cei.cusip6 (prepare_cei Sample.cei_csv)
  = [Some "123456"; Some "123456"; Some "123456"]
  /\ List.length Sample.cei_csv = 4%nat.
Proof. split; reflexivity. Qed.

(** X17.  The event window holds at most 7 days: rows of the window with
    pairwise different [days_from_release] number at most 7. *)
Theorem event_window_seven_days (merged g : list Merged.row) :
  incl g (event_window merged) ->
  NoDup (map Merged.days_from_release g) ->
  (List.length g <= 7)%nat.
Proof.
  intros Hin Hnd.
  rewrite <- (length_map Merged.days_from_release g).
  change 7%nat
    with (List.length (map Some [-3; -2; -1; 0; 1; 2; 3])).
  apply NoDup_incl_length; [exact Hnd|].
  intros d Hd. apply in_map_iff in Hd as [m [<- Hm]].
  apply Hin, filter_In in Hm as [_ Hb]. unfold between in Hb.
  destruct (Merged.days_from_release m) as [d|]; [|discriminate].
  apply andb_true_iff in Hb as [H1 H2].
  assert (Hd : d = -3 \/ d = -2 \/ d = -1 \/ d = 0 \/ d = 1 \/ d = 2 \/ d = 3)
    by lia.
  simpl. intuition (subst; auto).
Qed.

(** The two window rows of the firm 123456 joined with its first listing. *)
Lemma event_window_seven_days_sample :
  let g := filter (fun m => match Merged.cei_score m with
                            | Some q => Qeq_bool q 5
                            | None => false
                            end)
                  (event_window Sample.merged) in
  List.length g = 2%nat /\ (List.length g <= 7)%nat.
Proof.
  intros g. split; [reflexivity|].
  apply (event_window_seven_days Sample.merged g).
  - intros m Hm. apply filter_In in Hm. tauto.
  - repeat constructor; simpl; intuition discriminate.
Defined.

(** ** The order of the groups *)

Section SortedFacts.
Context {K : Type}.
Variable cmp : K -> K -> comparison.
(** The one property of the comparison that insertion needs. *)
Hypothesis cmp_Gt : forall a b, cmp a b = Gt -> cmp b a <> Gt.

Lemma insert_sorted_Sorted (k : K) (l : list K) :
  Sorted (fun a b => cmp a b <> Gt) l ->
  Sorted (fun a b => cmp a b <> Gt) (insert_sorted cmp k l).
Proof.
  induction l as [|x xs IH]; simpl; intros Hs.
  - repeat constructor.
  - inversion Hs as [|? ? Hxs Hhd]; subst.
    destruct (cmp k x) eqn:Hk.
    + constructor; [exact Hs | constructor; congruence].
    + constructor; [exact Hs | constructor; congruence].
    + constructor; [now apply IH|].
      destruct xs as [|y ys]; simpl.
      * constructor. now apply cmp_Gt.
      * inversion Hhd; subst.
        destruct (cmp k y); constructor; auto.
Qed.

Lemma sort_by_Sorted (l : list K) :
  Sorted (fun a b => cmp a b <> Gt) (sort_by cmp l).
Proof.
  induction l as [|x xs IH]; simpl; [constructor|].
  now apply insert_sorted_Sorted.
Qed.

Lemma sort_by_sorted_id (l : list K) :
  Sorted (fun a b => cmp a b <> Gt) l -> sort_by cmp l = l.
Proof.
  induction l as [|x xs IH]; simpl; intros Hs; [reflexivity|].
  inversion Hs as [|? ? Hxs Hhd]; subst.
  rewrite (IH Hxs). destruct xs as [|y ys]; simpl; [reflexivity|].
  inversion Hhd; subst.
  destruct (cmp x y); congruence.
Qed.

End SortedFacts.

Lemma string_compare_Gt (a b : string) :
  String.compare a b = Gt -> String.compare b a <> Gt.
Proof.
  intros H. rewrite String.compare_antisym, H. discriminate.
Qed.

(** X18.  The rows of [summary_stats] come in ascending order of their score
    bin labels, compared as strings, each label once: the [sorted] of cell
    14 changes nothing, and the summary lines are printed in the order of
    the rows. *)
Theorem summary_order_is_row_order
  (std : list Q -> option Q) (fer : list FirmEvent.row) :
  summary_order (summary_stats std fer)
  = map Summary.score_bin (summary_stats std fer)
  /\ Sorted (fun a b => String.compare a b <> Gt)
            (map Summary.score_bin (summary_stats std fer))
  /\ NoDup (map Summary.score_bin (summary_stats std fer)).
Proof.
  assert (E : map Summary.score_bin (summary_stats std fer)
              = map fst (groupby string_dec String.compare
                           (fun r => Some (FirmEvent.score_bin r)) fer)).
  { unfold summary_stats. rewrite map_map. apply map_ext.
    intros [b g]. reflexivity. }
  assert (Hs : Sorted (fun a b => String.compare a b <> Gt)
                 (map Summary.score_bin (summary_stats std fer))).
  { rewrite E. unfold groupby. rewrite map_map. simpl. rewrite map_id.
    apply sort_by_Sorted. exact string_compare_Gt. }
  split; [|split].
  - unfold summary_order. apply sort_by_sorted_id. exact Hs.
  - exact Hs.
  - rewrite E. apply groupby_keys_NoDup.
Qed.

Example summary_order_sample :
  summary_order
    (summary_stats (fun _ => None)
       [ {| FirmEvent.cusip6 := "AAAAAA"; FirmEvent.year := 2010;
            FirmEvent.score_bin := "20-29"; FirmEvent.event_return := 1 # 100 |};
         {| FirmEvent.cusip6 := "BBBBBB"; FirmEvent.year := 2010;
            FirmEvent.score_bin := "100-100"; FirmEvent.event_return := 2 # 100 |};
         {| FirmEvent.cusip6 := "CCCCCC"; FirmEvent.year := 2010;
            FirmEvent.score_bin := "0-9"; FirmEvent.event_return := 3 # 100 |} ])
  = ["0-9"; "100-100"; "20-29"].
Proof. reflexivity. Qed.
